(** * Multi-Platform Campaign Builder: a shallow embedding of [app1.py]

    The development follows the source file top to bottom:
    - [Py]: the handful of Python primitives the program uses
      ([str.join], [str(int)], [enumerate], [for] loops, [dict.get]);
    - [CampaignBuilder]: the class of the same name, with
      [generate_prompt_sequence];
    - [Timeline]: the nested loop of the "Generate Campaign Timeline"
      handler;
    - [App]: the session state and one pass of the script [main], written
      in a small state monad in which [st.rerun()] ends the pass.

    Theorems come after all definitions. *)

From Stdlib Require Import String Ascii List Arith Bool Lia DecimalString
  DecimalNat.
Import ListNotations.
Local Open Scope string_scope.
Local Open Scope list_scope.

(* ===================================================================== *)
(** ** Python primitives *)
(* ===================================================================== *)

Module Py.

(** The line feed that separates the lines of a triple-quoted literal. *)
Definition nl : string := String (ascii_of_nat 10) EmptyString.

(** [sep.join(items)]. *)
Definition join (sep : string) (items : list string) : string :=
  String.concat sep items.

(** [str(n)] (and [{n}] inside an f-string) for a non-negative [int]. *)
Definition str_of_nat (n : nat) : string :=
  NilEmpty.string_of_uint (Nat.to_uint n).

(** [enumerate(items)]: the items paired with their 0-based position. *)
Definition enumerate {A : Type} (items : list A) : list (nat * A) :=
  combine (seq 0 (length items)) items.

(** [for x in items: body], as a state transformer: the loop body is run
    on the items from left to right. *)
Definition for_each {A S : Type} (items : list A) (body : A -> S -> S)
  (s : S) : S :=
  fold_left (fun acc x => body x acc) items s.

(** [xs.append(x)]. *)
Definition append {A : Type} (x : A) (xs : list A) : list A := xs ++ [x].

(** [d.get(key, default)], on a key that is present ([Some v]) or absent. *)
Definition get {A : Type} (entry : option A) (default : A) : A :=
  match entry with
  | Some v => v
  | None => default
  end.

(** [needle in haystack] for strings. *)
Fixpoint occursb (needle haystack : string) : bool :=
  String.prefix needle haystack ||
  match haystack with
  | EmptyString => false
  | String _ rest => occursb needle rest
  end.

End Py.

(* ===================================================================== *)
(** ** Data model *)
(* ===================================================================== *)

(** The dictionary [campaign_data].  The program only ever stores the eight
    keys below in it, text under six of them and a list of names under the
    other two; a key that has not been stored is [None].  [{}] is
    [empty_campaign_data]. *)
Record CampaignData : Type := mkCampaignData {
  product_name : option string;
  target_audience : option string;
  campaign_duration : option string;
  key_message : option string;
  campaign_goal : option string;
  budget_tier : option string;
  selected_platforms : option (list string);
  campaign_phases : option (list string)
}.

Definition empty_campaign_data : CampaignData :=
  mkCampaignData None None None None None None None None.

(** One entry of the prompt list: [{"phase": .., "platform": .., "prompt": ..}]. *)
Record PromptRecord : Type := mkPrompt {
  phase : string;
  platform : string;
  prompt : string
}.

(** One entry of [timeline_data]. *)
Record TimelineRow : Type := mkRow {
  Week : string;
  Phase : string;
  Platform : string;
  Task : string;
  Status : string
}.

(* ===================================================================== *)
(** ** class CampaignBuilder *)
(* ===================================================================== *)

Module CampaignBuilder.

Import Py.

(** [self.platforms] and [self.campaign_phases], set in [__init__]. *)
Definition platforms : list string :=
  ["Instagram"; "TikTok"; "Email"; "Twitter"; "LinkedIn"; "Facebook"].

Definition phases_catalog : list string :=
  ["Awareness"; "Consideration"; "Conversion"; "Retention"].

(** [campaign_phases[0] if campaign_phases else 'Awareness']. *)
Definition first_phase (campaign_phases : list string) : string :=
  match campaign_phases with
  | p :: _ => p
  | [] => "Awareness"
  end.

(** The three f-string templates of [generate_prompt_sequence]. *)
Definition foundation_text
  (product_name target_audience key_message : string)
  (selected_platforms : list string) : string :=
  "Act as a senior marketing strategist. Create a multi-platform campaign for:" ++ nl ++
  "            " ++ nl ++
  "Product: " ++ product_name ++ nl ++
  "Target Audience: " ++ target_audience ++ nl ++
  "Key Message: " ++ key_message ++ nl ++
  "Platforms: " ++ join ", " selected_platforms ++ nl ++
  nl ++
  "Propose a weekly strategy with specific goals for each platform.".

Definition content_text
  (platform target_audience : string) (campaign_phases : list string)
  : string :=
  "For " ++ platform ++ ", generate 3-5 content ideas for the " ++
  first_phase campaign_phases ++ " phase targeting " ++ target_audience ++
  ". Focus on:" ++ nl ++
  "- Platform-best practices for " ++ platform ++ nl ++
  "- Content format recommendations" ++ nl ++
  "- Hashtag strategy" ++ nl ++
  "- Engagement tactics".

Definition asset_text (product_name : string) : string :=
  "Create specific copy and content guidelines for:" ++ nl ++
  "Product: " ++ product_name ++ nl ++
  nl ++
  "Include:" ++ nl ++
  "- 5 email subject lines" ++ nl ++
  "- 3 Instagram carousel concepts" ++ nl ++
  "- 2 TikTok script outlines" ++ nl ++
  "- Social media post templates".

(** [generate_prompt_sequence(self, campaign_data)].  The local list
    [prompts] is threaded through the three appending phases. *)
Definition generate_prompt_sequence (campaign_data : CampaignData)
  : list PromptRecord :=
  let prompts := [] in
  let product_name := get (product_name campaign_data) "Your Product" in
  let target_audience :=
    get (target_audience campaign_data) "your target audience" in
  let key_message := get (key_message campaign_data) "your key message" in
  let selected_platforms :=
    get (selected_platforms campaign_data) ["Instagram"; "TikTok"] in
  let campaign_phases :=
    get (campaign_phases campaign_data) ["Awareness"] in
  (* Phase 1: Foundation *)
  let prompts :=
    append
      {| phase := "Foundation";
         platform := "All";
         prompt := foundation_text product_name target_audience
                     key_message selected_platforms |}
      prompts in
  (* Phase 2: Platform-specific content *)
  let prompts :=
    for_each selected_platforms
      (fun platform prompts =>
         append
           {| phase := "Content Creation";
              platform := platform;
              prompt := content_text platform target_audience
                          campaign_phases |}
           prompts)
      prompts in
  (* Phase 3: Asset creation *)
  let prompts :=
    append
      {| phase := "Asset Development";
         platform := "All";
         prompt := asset_text product_name |}
      prompts in
  prompts.

End CampaignBuilder.

(* ===================================================================== *)
(** ** Timeline generation (the "Generate Campaign Timeline" handler) *)
(* ===================================================================== *)

Module Timeline.

Import Py.

(** The nested loop over [enumerate(phases)] and [enumerate(platforms)],
    appending one dictionary per iteration to [timeline_data].  The
    handler also binds [start_date = datetime.date.today()], which no row
    uses. *)
Definition generate_timeline (phases platforms : list string)
  : list TimelineRow :=
  let timeline_data := [] in
  for_each (enumerate phases)
    (fun '(i, phase) timeline_data =>
       for_each (enumerate platforms)
         (fun '(j, platform) timeline_data =>
            append
              {| Week := "Week " ++ str_of_nat (i + 1);
                 Phase := phase;
                 Platform := platform;
                 Task := "Create " ++ platform ++ " content for " ++ phase;
                 Status := "Planned" |}
              timeline_data)
         timeline_data)
    timeline_data.

(** The handler reads both sequences from the session's campaign data,
    with the empty list standing in for an absent key. *)
Definition timeline_of (campaign_data : CampaignData) : list TimelineRow :=
  generate_timeline
    (get (campaign_phases campaign_data) [])
    (get (selected_platforms campaign_data) []).

End Timeline.

(* ===================================================================== *)
(** ** The script [main]: session state and one pass *)
(* ===================================================================== *)

Module App.

Import Py.

(** *** Item assignment [campaign_data[key] = value] *)

Definition with_product_name (v : string) (d : CampaignData) :=
  mkCampaignData (Some v) (target_audience d) (campaign_duration d)
    (key_message d) (campaign_goal d) (budget_tier d)
    (selected_platforms d) (campaign_phases d).

Definition with_target_audience (v : string) (d : CampaignData) :=
  mkCampaignData (product_name d) (Some v) (campaign_duration d)
    (key_message d) (campaign_goal d) (budget_tier d)
    (selected_platforms d) (campaign_phases d).

Definition with_campaign_duration (v : string) (d : CampaignData) :=
  mkCampaignData (product_name d) (target_audience d) (Some v)
    (key_message d) (campaign_goal d) (budget_tier d)
    (selected_platforms d) (campaign_phases d).

Definition with_key_message (v : string) (d : CampaignData) :=
  mkCampaignData (product_name d) (target_audience d) (campaign_duration d)
    (Some v) (campaign_goal d) (budget_tier d)
    (selected_platforms d) (campaign_phases d).

Definition with_campaign_goal (v : string) (d : CampaignData) :=
  mkCampaignData (product_name d) (target_audience d) (campaign_duration d)
    (key_message d) (Some v) (budget_tier d)
    (selected_platforms d) (campaign_phases d).

Definition with_budget_tier (v : string) (d : CampaignData) :=
  mkCampaignData (product_name d) (target_audience d) (campaign_duration d)
    (key_message d) (campaign_goal d) (Some v)
    (selected_platforms d) (campaign_phases d).

Definition with_selected_platforms (v : list string) (d : CampaignData) :=
  mkCampaignData (product_name d) (target_audience d) (campaign_duration d)
    (key_message d) (campaign_goal d) (budget_tier d)
    (Some v) (campaign_phases d).

Definition with_campaign_phases (v : list string) (d : CampaignData) :=
  mkCampaignData (product_name d) (target_audience d) (campaign_duration d)
    (key_message d) (campaign_goal d) (budget_tier d)
    (selected_platforms d) (Some v).

(** *** [st.session_state] *)

(** The three keys the script keeps in the session. *)
Record SessionState : Type := mkSession {
  campaign_data : CampaignData;
  prompts : list PromptRecord;
  current_step : nat
}.

(** What the "Initialize session state" block installs on the first
    pass of a session; the three keys are present ever after. *)
Definition initial_state : SessionState :=
  {| campaign_data := empty_campaign_data; prompts := []; current_step := 0 |}.

(** *** Widget readings of one pass *)

(** What the widgets return during one pass of the script: a button is
    [true] in the pass that its click triggers. *)
Record Widgets : Type := mkWidgets {
  button_step : nat -> bool;            (* key "step_{i}" *)
  button_reset_campaign : bool;
  text_product_name : string;
  text_target_audience : string;
  select_campaign_duration : string;
  text_key_message : string;
  select_campaign_goal : string;
  select_budget_tier : string;
  button_save_foundation : bool;
  checkbox_platform : string -> bool;   (* key "platform_{platform}" *)
  button_back : bool;
  button_continue_content : bool;
  multiselect_phases : list string;
  button_generate_prompts : bool;
  button_generate_timeline : bool;
  button_view_final_plan : bool;
  button_start_new_campaign : bool
}.

(** *** The script monad *)

(** A pass either runs to the end of the script or is cut short by
    [st.rerun()]. *)
Inductive outcome (A : Type) : Type :=
| Returned (a : A)
| Rerun.
Arguments Returned {A} a.
Arguments Rerun {A}.

Definition Script (A : Type) : Type :=
  SessionState -> SessionState * outcome A.

Definition ret {A : Type} (a : A) : Script A :=
  fun s => (s, Returned a).

Definition bind {A B : Type} (m : Script A) (k : A -> Script B) : Script B :=
  fun s =>
    match m s with
    | (s', Returned a) => k a s'
    | (s', Rerun) => (s', Rerun)
    end.

Notation "x <- m ;; k" := (bind m (fun x => k))
  (at level 61, m at next level, right associativity).
Notation "m ;; k" := (bind m (fun _ => k))
  (at level 61, right associativity).

Definition get_state : Script SessionState := fun s => (s, Returned s).

Definition rerun {A : Type} : Script A := fun s => (s, Rerun).

Definition set_campaign_data (d : CampaignData) : Script unit :=
  fun s => (mkSession d (prompts s) (current_step s), Returned tt).

Definition set_prompts (ps : list PromptRecord) : Script unit :=
  fun s => (mkSession (campaign_data s) ps (current_step s), Returned tt).

Definition set_current_step (i : nat) : Script unit :=
  fun s => (mkSession (campaign_data s) (prompts s) i, Returned tt).

(** [st.session_state.campaign_data[key] = value], through a setter. *)
Definition set_item (setter : CampaignData -> CampaignData) : Script unit :=
  s <- get_state ;; set_campaign_data (setter (campaign_data s)).

(** [if b: body]. *)
Definition when (b : bool) (body : Script unit) : Script unit :=
  if b then body else ret tt.

(** [for x in items: body] with a body that acts on the session. *)
Fixpoint for_each_script {A : Type} (items : list A) (body : A -> Script unit)
  : Script unit :=
  match items with
  | [] => ret tt
  | x :: rest => body x ;; for_each_script rest body
  end.

(** *** The sidebar *)

Definition steps : list string :=
  ["Campaign Foundation"; "Platform Selection"; "Content Strategy";
   "Prompt Generation"; "Execution Plan"].

(** The loop that draws one button per step and jumps on a click. *)
Definition sidebar_navigation (ui : Widgets) : Script unit :=
  for_each_script (enumerate steps)
    (fun '(i, step) => when (button_step ui i) (set_current_step i)).

(** The body shared by "Reset Campaign" and "Start New Campaign". *)
Definition reset_campaign : Script unit :=
  set_campaign_data empty_campaign_data ;;
  set_prompts [] ;;
  set_current_step 0 ;;
  rerun.

Definition sidebar (ui : Widgets) : Script unit :=
  sidebar_navigation ui ;;
  when (button_reset_campaign ui) reset_campaign.

(** *** The five steps *)

(** Step 1, "Campaign Foundation": six fields are stored, then the
    continue button. *)
Definition step_foundation (ui : Widgets) : Script unit :=
  set_item (with_product_name (text_product_name ui)) ;;
  set_item (with_target_audience (text_target_audience ui)) ;;
  set_item (with_campaign_duration (select_campaign_duration ui)) ;;
  set_item (with_key_message (text_key_message ui)) ;;
  set_item (with_campaign_goal (select_campaign_goal ui)) ;;
  set_item (with_budget_tier (select_budget_tier ui)) ;;
  when (button_save_foundation ui) (set_current_step 1 ;; rerun).

(** The checkbox loop of step 2: the ticked platforms, in catalog order. *)
Definition ticked_platforms (ui : Widgets) : list string :=
  let selected_platforms := [] in
  for_each (enumerate CampaignBuilder.platforms)
    (fun '(i, platform) selected_platforms =>
       if checkbox_platform ui platform
       then append platform selected_platforms
       else selected_platforms)
    selected_platforms.

(** Step 2, "Platform Selection". *)
Definition step_platforms (ui : Widgets) : Script unit :=
  let selected_platforms := ticked_platforms ui in
  set_item (with_selected_platforms selected_platforms) ;;
  when (button_back ui) (set_current_step 0 ;; rerun) ;;
  when (button_continue_content ui) (set_current_step 2 ;; rerun).

(** Step 3, "Content Strategy". *)
Definition step_content (ui : Widgets) : Script unit :=
  let selected_phases := multiselect_phases ui in
  set_item (with_campaign_phases selected_phases) ;;
  when (button_back ui) (set_current_step 1 ;; rerun) ;;
  when (button_generate_prompts ui) (set_current_step 3 ;; rerun).

(** The guarded generation at the top of step 4:
    [if not st.session_state.prompts: st.session_state.prompts = ...]. *)
Definition generate_once : Script unit :=
  s <- get_state ;;
  match prompts s with
  | [] =>
      set_prompts
        (CampaignBuilder.generate_prompt_sequence (campaign_data s))
  | _ :: _ => ret tt
  end.

(** Step 4, "Prompt Generation".  The value of the pass is the timeline
    table, when the timeline button asked for one. *)
Definition step_prompts (ui : Widgets) : Script (option (list TimelineRow)) :=
  generate_once ;;
  s <- get_state ;;
  let shown :=
    if button_generate_timeline ui
    then Some (Timeline.timeline_of (campaign_data s))
    else None in
  when (button_back ui) (set_current_step 2 ;; rerun) ;;
  when (button_view_final_plan ui) (set_current_step 4 ;; rerun) ;;
  ret shown.

(** Step 5, "Execution Plan": read-only, except for the restart button. *)
Definition step_final (ui : Widgets) : Script unit :=
  when (button_start_new_campaign ui) reset_campaign.

(** *** One pass of [main] *)

(** The [if]/[elif] chain on [st.session_state.current_step]. *)
Definition step_dispatch (ui : Widgets) : Script (option (list TimelineRow)) :=
  s <- get_state ;;
  if Nat.eqb (current_step s) 0 then step_foundation ui ;; ret None
  else if Nat.eqb (current_step s) 1 then step_platforms ui ;; ret None
  else if Nat.eqb (current_step s) 2 then step_content ui ;; ret None
  else if Nat.eqb (current_step s) 3 then step_prompts ui
  else if Nat.eqb (current_step s) 4 then step_final ui ;; ret None
  else ret None.

Definition main (ui : Widgets) : Script (option (list TimelineRow)) :=
  sidebar ui ;;
  step_dispatch ui.

(** The session after a pass. *)
Definition exec {A : Type} (m : Script A) (s : SessionState) : SessionState :=
  fst (m s).

(** A session is a sequence of passes, one per user interaction or rerun. *)
Definition run_passes (uis : list Widgets) (s : SessionState) : SessionState :=
  for_each uis (fun ui s => exec (main ui) s) s.

(** Readings with no button pressed and nothing entered. *)
Definition idle : Widgets :=
  {| button_step := fun _ => false;
     button_reset_campaign := false;
     text_product_name := "";
     text_target_audience := "";
     select_campaign_duration := "2 weeks";
     text_key_message := "";
     select_campaign_goal := "Brand Awareness";
     select_budget_tier := "Bootstrapped";
     button_save_foundation := false;
     checkbox_platform := fun _ => false;
     button_back := false;
     button_continue_content := false;
     multiselect_phases := CampaignBuilder.phases_catalog;
     button_generate_prompts := false;
     button_generate_timeline := false;
     button_view_final_plan := false;
     button_start_new_campaign := false |}.

(** [idle] with the sidebar button of index [i] clicked. *)
Definition click_step (i : nat) : Widgets :=
  {| button_step := fun j => Nat.eqb j i;
     button_reset_campaign := false;
     text_product_name := "";
     text_target_audience := "";
     select_campaign_duration := "2 weeks";
     text_key_message := "";
     select_campaign_goal := "Brand Awareness";
     select_budget_tier := "Bootstrapped";
     button_save_foundation := false;
     checkbox_platform := fun _ => false;
     button_back := false;
     button_continue_content := false;
     multiselect_phases := CampaignBuilder.phases_catalog;
     button_generate_prompts := false;
     button_generate_timeline := false;
     button_view_final_plan := false;
     button_start_new_campaign := false |}.

(** [idle] with "Reset Campaign" clicked. *)
Definition click_reset : Widgets :=
  {| button_step := fun _ => false;
     button_reset_campaign := true;
     text_product_name := "";
     text_target_audience := "";
     select_campaign_duration := "2 weeks";
     text_key_message := "";
     select_campaign_goal := "Brand Awareness";
     select_budget_tier := "Bootstrapped";
     button_save_foundation := false;
     checkbox_platform := fun _ => false;
     button_back := false;
     button_continue_content := false;
     multiselect_phases := CampaignBuilder.phases_catalog;
     button_generate_prompts := false;
     button_generate_timeline := false;
     button_view_final_plan := false;
     button_start_new_campaign := false |}.

End App.


(* ===================================================================== *)
(** ** Specification-side definitions *)
(* ===================================================================== *)

Module Spec.

Import Py.

(** The timeline row the specification describes for the phase at 0-based
    position [i] and a platform. *)
Definition row_at (i : nat) (phase platform : string) : TimelineRow :=
  {| Week := "Week " ++ str_of_nat (i + 1);
     Phase := phase;
     Platform := platform;
     Task := "Create " ++ platform ++ " content for " ++ phase;
     Status := "Planned" |}.

(** The documented defaults, stored explicitly under their keys. *)
Definition documented_defaults : CampaignData :=
  {| product_name := Some "Your Product";
     target_audience := Some "your target audience";
     campaign_duration := None;
     key_message := Some "your key message";
     campaign_goal := None;
     budget_tier := None;
     selected_platforms := Some ["Instagram"; "TikTok"];
     campaign_phases := Some ["Awareness"] |}.

(** Placeholder syntax left in a text: an opening or closing brace. *)
Definition has_placeholder (text : string) : bool :=
  occursb "{" text || occursb "}" text.

(** A record of the content-creation phase. *)
Definition is_content (r : PromptRecord) : bool :=
  String.eqb (phase r) "Content Creation".

(** The dictionary without its ['selected_platforms'] key. *)
Definition without_selected_platforms (d : CampaignData) : CampaignData :=
  mkCampaignData (product_name d) (target_audience d) (campaign_duration d)
    (key_message d) (campaign_goal d) (budget_tier d)
    None (campaign_phases d).

(** Neither of the two resetting buttons is pressed in a pass. *)
Definition no_reset (ui : App.Widgets) : bool :=
  negb (App.button_reset_campaign ui) &&
  negb (App.button_start_new_campaign ui).

(** The step a pass renders: the one current after the sidebar buttons. *)
Definition rendered_step (ui : App.Widgets) (s : App.SessionState) : nat :=
  App.current_step (App.exec (App.sidebar_navigation ui) s).

(** The session relation "the prompts are the same". *)
Definition same_prompts (s s' : App.SessionState) : Prop :=
  App.prompts s' = App.prompts s.

(** The session relation "the step is the same, or one of the five". *)
Definition step_in_range (s s' : App.SessionState) : Prop :=
  App.current_step s' = App.current_step s \/ App.current_step s' < 5.

(** The session relation "prompts that exist are kept as they are". *)
Definition kept_prompts (s s' : App.SessionState) : Prop :=
  App.prompts s <> [] -> App.prompts s' = App.prompts s.

(** The step the sidebar loop leaves current: the last pressed button of
    the five wins, and without one the step stays [c]. *)
Definition nav_target (ui : App.Widgets) (c : nat) : nat :=
  if App.button_step ui 4 then 4
  else if App.button_step ui 3 then 3
  else if App.button_step ui 2 then 2
  else if App.button_step ui 1 then 1
  else if App.button_step ui 0 then 0
  else c.

(** A script whose every run relates the session before to the one after. *)
Definition respects (R : App.SessionState -> App.SessionState -> Prop)
  {A : Type} (m : App.Script A) : Prop :=
  forall s, R s (App.exec m s).

(** The session relation "an invariant that held still holds". *)
Definition preserves (I : App.SessionState -> Prop)
  (s s' : App.SessionState) : Prop :=
  I s -> I s'.

(** The stored platform selection, if any, is a duplicate-free list of
    catalog platforms. *)
Definition selection_ok (s : App.SessionState) : Prop :=
  match selected_platforms (App.campaign_data s) with
  | None => True
  | Some l => NoDup l /\ incl l CampaignBuilder.platforms
  end.

(** The session's prompts are absent or came out of the generator. *)
Definition prompts_ok (s : App.SessionState) : Prop :=
  App.prompts s = [] \/
  exists d, App.prompts s = CampaignBuilder.generate_prompt_sequence d.

(** [key in d], for the optional entry under a key. *)
Definition present {A : Type} (entry : option A) : bool :=
  match entry with
  | Some _ => true
  | None => false
  end.

(** Which of the eight keys a dictionary stores, in the order of the
    record. *)
Definition stored_keys (d : CampaignData) : list bool :=
  [ present (product_name d); present (target_audience d);
    present (campaign_duration d); present (key_message d);
    present (campaign_goal d); present (budget_tier d);
    present (selected_platforms d); present (campaign_phases d) ].

(** The session relation "no stored key has been dropped". *)
Definition keys_kept (s s' : App.SessionState) : Prop :=
  Forall2 (fun before after => before = true -> after = true)
    (stored_keys (App.campaign_data s))
    (stored_keys (App.campaign_data s')).

(** No sidebar step button is pressed in a pass. *)
Definition no_jump (ui : App.Widgets) : bool :=
  forallb (fun i => negb (App.button_step ui i)) (seq 0 5).

(** The value a key stands for: the stored one, or [default] when the key
    is absent. *)
Definition stored_or_default {A : Type} (entry : option A)
  (default value : A) : Prop :=
  match entry with
  | Some v => value = v
  | None => value = default
  end.

(** Readings with the given platform boxes ticked and no button pressed. *)
Definition ticking (names : list string) : App.Widgets :=
  {| App.button_step := fun _ => false;
     App.button_reset_campaign := false;
     App.text_product_name := "";
     App.text_target_audience := "";
     App.select_campaign_duration := "2 weeks";
     App.text_key_message := "";
     App.select_campaign_goal := "Brand Awareness";
     App.select_budget_tier := "Bootstrapped";
     App.button_save_foundation := false;
     App.checkbox_platform := fun p => existsb (String.eqb p) names;
     App.button_back := false;
     App.button_continue_content := false;
     App.multiselect_phases := CampaignBuilder.phases_catalog;
     App.button_generate_prompts := false;
     App.button_generate_timeline := false;
     App.button_view_final_plan := false;
     App.button_start_new_campaign := false |}.

End Spec.

(* ===================================================================== *)
(** ** Loops that append *)
(* ===================================================================== *)

Section Loops.

Import Py.

Context {A B S : Type}.

Lemma for_each_ext (items : list A) (body1 body2 : A -> S -> S) (s : S) :
  (forall x acc, body1 x acc = body2 x acc) ->
  for_each items body1 s = for_each items body2 s.
Proof.
  intros Hext. unfold for_each. revert s.
  induction items as [|x items IH]; intros s; simpl.
  - reflexivity.
  - rewrite Hext. apply IH.
Qed.

Lemma for_each_append (f : A -> B) (items : list A) (init : list B) :
  for_each items (fun x acc => append (f x) acc) init = init ++ map f items.
Proof.
  unfold for_each, append. revert init.
  induction items as [|x items IH]; intros init; simpl.
  - now rewrite app_nil_r.
  - rewrite IH, <- app_assoc. reflexivity.
Qed.

Lemma for_each_extend (g : A -> list B) (items : list A) (init : list B) :
  for_each items (fun x acc => acc ++ g x) init = init ++ flat_map g items.
Proof.
  unfold for_each. revert init.
  induction items as [|x items IH]; intros init; simpl.
  - now rewrite app_nil_r.
  - rewrite IH, <- app_assoc. reflexivity.
Qed.

Lemma map_snd_enumerate_from (start : nat) (items : list A) :
  map snd (combine (seq start (length items)) items) = items.
Proof.
  revert start. induction items as [|x items IH]; intros start; simpl.
  - reflexivity.
  - now rewrite IH.
Qed.

End Loops.

(* ===================================================================== *)
(** ** Substrings *)
(* ===================================================================== *)

Section Substrings.

Import Py.
Local Open Scope string_scope.

Lemma prefix_app (t rest : string) : String.prefix t (t ++ rest) = true.
Proof.
  induction t as [|c t IH]; simpl.
  - now destruct rest.
  - destruct (ascii_dec c c) as [_|Hneq]; [exact IH | now elim Hneq].
Qed.

Lemma occursb_unfold (t h : string) :
  occursb t h =
  String.prefix t h ||
  match h with EmptyString => false | String _ rest => occursb t rest end.
Proof. destruct h; reflexivity. Qed.

Lemma occursb_here (t rest : string) : occursb t (t ++ rest) = true.
Proof. rewrite occursb_unfold, prefix_app. reflexivity. Qed.

Lemma occursb_skip (before t text : string) :
  occursb t text = true -> occursb t (before ++ text) = true.
Proof.
  intros H. induction before as [|c before IH]; simpl.
  - exact H.
  - rewrite IH. apply orb_true_r.
Qed.

End Substrings.

(* ===================================================================== *)
(** ** The prompt sequence *)
(* ===================================================================== *)

Section PromptSequence.

Import Py CampaignBuilder Spec.

(** [d.get(key, default)] returns what the key stands for. *)
Lemma get_stored_or_default {A : Type} (entry : option A) (default value : A) :
  stored_or_default entry default value -> get entry default = value.
Proof. destruct entry; intros ->; reflexivity. Qed.

(** The loop-free form of the generator: the Foundation record, one record
    per platform, the Asset Development record. *)
Lemma generate_prompt_sequence_eq (d : CampaignData) :
  generate_prompt_sequence d =
  {| phase := "Foundation";
     platform := "All";
     prompt :=
       foundation_text
         (get (product_name d) "Your Product")
         (get (target_audience d) "your target audience")
         (get (key_message d) "your key message")
         (get (selected_platforms d) ["Instagram"; "TikTok"]) |}
  :: map
       (fun p =>
          {| phase := "Content Creation";
             platform := p;
             prompt :=
               content_text p
                 (get (target_audience d) "your target audience")
                 (get (campaign_phases d) ["Awareness"]) |})
       (get (selected_platforms d) ["Instagram"; "TikTok"])
  ++ [ {| phase := "Asset Development";
          platform := "All";
          prompt := asset_text (get (product_name d) "Your Product") |} ].
Proof.
  unfold generate_prompt_sequence. cbv zeta.
  rewrite for_each_append. reflexivity.
Qed.

(** The generator reads five keys and nothing else. *)
Lemma generate_prompt_sequence_reads (d1 d2 : CampaignData) :
  product_name d1 = product_name d2 ->
  target_audience d1 = target_audience d2 ->
  key_message d1 = key_message d2 ->
  selected_platforms d1 = selected_platforms d2 ->
  campaign_phases d1 = campaign_phases d2 ->
  generate_prompt_sequence d1 = generate_prompt_sequence d2.
Proof.
  intros Hp Ha Hk Hs Hc. unfold generate_prompt_sequence.
  now rewrite Hp, Ha, Hk, Hs, Hc.
Qed.

Lemma generate_prompt_sequence_length (d : CampaignData) :
  length (generate_prompt_sequence d) =
  length (get (selected_platforms d) ["Instagram"; "TikTok"]) + 2.
Proof.
  rewrite generate_prompt_sequence_eq. simpl.
  rewrite length_app, length_map. simpl. lia.
Qed.

Lemma generate_prompt_sequence_nonempty (d : CampaignData) :
  generate_prompt_sequence d <> [].
Proof. rewrite generate_prompt_sequence_eq. discriminate. Qed.

Lemma content_text_names_phase (p audience : string) (phases : list string) :
  occursb (first_phase phases) (content_text p audience phases) = true.
Proof.
  unfold content_text. do 3 apply occursb_skip. apply occursb_here.
Qed.

Lemma content_text_names_audience (p audience : string) (phases : list string) :
  occursb audience (content_text p audience phases) = true.
Proof.
  unfold content_text. do 5 apply occursb_skip. apply occursb_here.
Qed.

Lemma filter_is_content_map (f : string -> string) (ps : list string) :
  filter is_content
    (map (fun p => {| phase := "Content Creation"; platform := p;
                      prompt := f p |}) ps) =
  map (fun p => {| phase := "Content Creation"; platform := p;
                   prompt := f p |}) ps.
Proof.
  induction ps as [|p ps IH]; simpl.
  - reflexivity.
  - now rewrite IH.
Qed.

(** C1. Whenever the key [selected_platforms] is stored with a list of
    length [k], the generator returns exactly [k + 2] records; the first
    has phase "Foundation" and the last (position [k + 1]) has phase
    "Asset Development". *)
Theorem prompt_count_and_ends (d : CampaignData) (l : list string) :
  selected_platforms d = Some l ->
  length (generate_prompt_sequence d) = length l + 2 /\
  option_map phase (nth_error (generate_prompt_sequence d) 0)
    = Some "Foundation" /\
  option_map phase (nth_error (generate_prompt_sequence d) (length l + 1))
    = Some "Asset Development".
Proof.
  intros Hl. split; [|split].
  - rewrite generate_prompt_sequence_length, Hl. reflexivity.
  - rewrite generate_prompt_sequence_eq. reflexivity.
  - rewrite generate_prompt_sequence_eq, Hl. cbn [get].
    replace (length l + 1) with (S (length l)) by lia. cbn [nth_error].
    rewrite nth_error_app2 by (rewrite length_map; lia).
    rewrite length_map, Nat.sub_diag. reflexivity.
Qed.

Lemma prompt_count_and_ends_witness :
  length
    (generate_prompt_sequence
       (App.with_selected_platforms ["Email"; "Twitter"; "LinkedIn"]
          empty_campaign_data)) = 3 + 2 /\
  option_map phase
    (nth_error
       (generate_prompt_sequence
          (App.with_selected_platforms ["Email"; "Twitter"; "LinkedIn"]
             empty_campaign_data)) 0) = Some "Foundation" /\
  option_map phase
    (nth_error
       (generate_prompt_sequence
          (App.with_selected_platforms ["Email"; "Twitter"; "LinkedIn"]
             empty_campaign_data)) (3 + 1)) = Some "Asset Development".
Proof.
  apply (prompt_count_and_ends
           (App.with_selected_platforms ["Email"; "Twitter"; "LinkedIn"]
              empty_campaign_data)
           ["Email"; "Twitter"; "LinkedIn"]).
  reflexivity.
Defined.

(** C3, as the specification states it, fails: with no key stored the
    generator returns four records (the default platform list has two
    entries), not three. *)
Lemma no_keys_gives_four_records :
  length (generate_prompt_sequence empty_campaign_data) = 4 /\
  Nat.eqb (length (generate_prompt_sequence empty_campaign_data)) 3 = false.
Proof. split; reflexivity. Qed.

(** C3, amended. When none of the five keys the generator reads is
    stored, it returns exactly four records, the same as for a dictionary
    that stores the documented defaults explicitly: Foundation, one content
    record for Instagram and one for TikTok, Asset Development; and no
    prompt text contains a brace. *)
Theorem defaults_when_no_key (d : CampaignData) :
  product_name d = None ->
  target_audience d = None ->
  key_message d = None ->
  selected_platforms d = None ->
  campaign_phases d = None ->
  length (generate_prompt_sequence d) = 4 /\
  generate_prompt_sequence d = generate_prompt_sequence documented_defaults /\
  map platform (generate_prompt_sequence d)
    = ["All"; "Instagram"; "TikTok"; "All"] /\
  forallb (fun r => negb (has_placeholder (prompt r)))
    (generate_prompt_sequence d) = true.
Proof.
  intros Hp Ha Hk Hs Hc.
  assert (Hdef : generate_prompt_sequence d
                 = generate_prompt_sequence documented_defaults).
  { unfold generate_prompt_sequence. rewrite Hp, Ha, Hk, Hs, Hc. reflexivity. }
  rewrite Hdef. repeat split; vm_compute; reflexivity.
Qed.

Lemma defaults_when_no_key_witness :
  length (generate_prompt_sequence empty_campaign_data) = 4 /\
  generate_prompt_sequence empty_campaign_data
    = generate_prompt_sequence documented_defaults /\
  map platform (generate_prompt_sequence empty_campaign_data)
    = ["All"; "Instagram"; "TikTok"; "All"] /\
  forallb (fun r => negb (has_placeholder (prompt r)))
    (generate_prompt_sequence empty_campaign_data) = true.
Proof.
  apply (defaults_when_no_key empty_campaign_data); reflexivity.
Defined.

(** C9. Let [l] be the platform selection, [a] the target audience and
    [ps] the campaign phases the data stand for (the stored values, or the
    defaults of absent keys).  The content-creation records of the output
    are exactly one per entry of [l], in the order of [l], each carrying
    its platform; and each of their texts names the first entry of [ps]
    ("Awareness" when [ps] is empty) and the audience [a]. *)
Theorem content_records_follow_platforms
  (d : CampaignData) (l ps : list string) (a : string) :
  stored_or_default (selected_platforms d) ["Instagram"; "TikTok"] l ->
  stored_or_default (target_audience d) "your target audience" a ->
  stored_or_default (campaign_phases d) ["Awareness"] ps ->
  filter is_content (generate_prompt_sequence d) =
    map (fun p =>
           {| phase := "Content Creation";
              platform := p;
              prompt := content_text p a ps |})
        l /\
  map platform (filter is_content (generate_prompt_sequence d)) = l /\
  Forall
    (fun r =>
       occursb (hd "Awareness" ps) (prompt r) = true /\
       occursb a (prompt r) = true)
    (filter is_content (generate_prompt_sequence d)).
Proof.
  intros Hl Ha Hps.
  apply get_stored_or_default in Hl, Ha, Hps.
  assert (Hfilter :
    filter is_content (generate_prompt_sequence d) =
    map (fun p =>
           {| phase := "Content Creation";
              platform := p;
              prompt := content_text p a ps |})
        l).
  { rewrite generate_prompt_sequence_eq, Hl, Ha, Hps.
    cbn [filter is_content phase String.eqb Ascii.eqb Bool.eqb].
    rewrite filter_app, filter_is_content_map. cbn. apply app_nil_r. }
  split; [exact Hfilter | rewrite Hfilter; split].
  - rewrite map_map. cbn [platform]. apply map_id.
  - apply Forall_forall. intros r Hin. apply in_map_iff in Hin.
    destruct Hin as [p [<- _]]. cbn [prompt]. split.
    + replace (hd "Awareness" ps) with (first_phase ps)
        by (now destruct ps).
      apply content_text_names_phase.
    + apply content_text_names_audience.
Qed.

Lemma content_records_follow_platforms_witness :
  filter is_content
    (generate_prompt_sequence
       (mkCampaignData None (Some "students") None None None None
          (Some ["Email"; "Twitter"]) (Some ["Conversion"; "Retention"])))
  = [ {| phase := "Content Creation";
         platform := "Email";
         prompt :=
           content_text "Email" "students" ["Conversion"; "Retention"] |};
      {| phase := "Content Creation";
         platform := "Twitter";
         prompt :=
           content_text "Twitter" "students" ["Conversion"; "Retention"] |} ]
  /\
  Forall
    (fun r =>
       occursb "Conversion" (prompt r) = true /\
       occursb "students" (prompt r) = true)
    (filter is_content
       (generate_prompt_sequence
          (mkCampaignData None (Some "students") None None None None
             (Some ["Email"; "Twitter"])
             (Some ["Conversion"; "Retention"])))).
Proof.
  pose proof (content_records_follow_platforms
                (mkCampaignData None (Some "students") None None None None
                   (Some ["Email"; "Twitter"])
                   (Some ["Conversion"; "Retention"]))
                ["Email"; "Twitter"] ["Conversion"; "Retention"] "students"
                eq_refl eq_refl eq_refl) as [Hrecords [_ Hnames]].
  split; [exact Hrecords | exact Hnames].
Defined.

(** C10. When [selected_platforms] is stored with the empty list, the
    output consists of the Foundation and the Asset Development record
    only, with no content-creation record; the same dictionary without the
    key yields four records, the default selection being used only then. *)
Theorem empty_selection_is_not_defaulted (d : CampaignData) :
  selected_platforms d = Some [] ->
  length (generate_prompt_sequence d) = 2 /\
  map phase (generate_prompt_sequence d)
    = ["Foundation"; "Asset Development"] /\
  filter is_content (generate_prompt_sequence d) = [] /\
  length (generate_prompt_sequence (without_selected_platforms d)) = 4.
Proof.
  intros Hs. split; [|split; [|split]].
  - rewrite generate_prompt_sequence_length, Hs. reflexivity.
  - rewrite generate_prompt_sequence_eq, Hs. reflexivity.
  - rewrite generate_prompt_sequence_eq, Hs. reflexivity.
  - rewrite generate_prompt_sequence_length. reflexivity.
Qed.

Lemma empty_selection_is_not_defaulted_witness :
  length
    (generate_prompt_sequence
       (App.with_selected_platforms [] empty_campaign_data)) = 2 /\
  map phase
    (generate_prompt_sequence
       (App.with_selected_platforms [] empty_campaign_data))
    = ["Foundation"; "Asset Development"] /\
  filter is_content
    (generate_prompt_sequence
       (App.with_selected_platforms [] empty_campaign_data)) = [] /\
  length
    (generate_prompt_sequence
       (without_selected_platforms
          (App.with_selected_platforms [] empty_campaign_data))) = 4.
Proof.
  apply (empty_selection_is_not_defaulted
           (App.with_selected_platforms [] empty_campaign_data)).
  reflexivity.
Defined.

End PromptSequence.

(* ===================================================================== *)
(** ** The timeline *)
(* ===================================================================== *)

Section TimelineRows.

Import Py Timeline Spec.

(** The inner loop appends the rows of one phase, platform by platform. *)
Lemma inner_loop_rows (i : nat) (ph : string) (platforms : list string)
  (acc : list TimelineRow) :
  for_each (enumerate platforms)
    (fun '(j, platform) timeline_data =>
       append
         {| Week := "Week " ++ str_of_nat (i + 1);
            Phase := ph;
            Platform := platform;
            Task := "Create " ++ platform ++ " content for " ++ ph;
            Status := "Planned" |}
         timeline_data)
    acc
  = acc ++ map (row_at i ph) platforms.
Proof.
  rewrite (for_each_ext _ _
             (fun x acc => append (row_at i ph (snd x)) acc)).
  - rewrite for_each_append. unfold enumerate.
    rewrite <- (map_map snd (row_at i ph)), map_snd_enumerate_from.
    reflexivity.
  - intros [j p] acc'. reflexivity.
Qed.

(** The loop-free form of the timeline: the rows of each phase in turn. *)
Lemma generate_timeline_eq (phases platforms : list string) :
  generate_timeline phases platforms =
  flat_map (fun x => map (row_at (fst x) (snd x)) platforms)
    (enumerate phases).
Proof.
  unfold generate_timeline. cbv zeta.
  rewrite (for_each_ext _ _
             (fun x acc => acc ++ map (row_at (fst x) (snd x)) platforms)).
  - rewrite for_each_extend. reflexivity.
  - intros [i ph] acc. apply inner_loop_rows.
Qed.

Lemma rows_from_length (platforms phases : list string) (start : nat) :
  length
    (flat_map (fun x => map (row_at (fst x) (snd x)) platforms)
       (combine (seq start (length phases)) phases))
  = length phases * length platforms.
Proof.
  revert start. induction phases as [|ph phases IH]; intros start; simpl.
  - reflexivity.
  - rewrite length_app, length_map, IH. reflexivity.
Qed.

Lemma rows_from_nth (platforms phases : list string) (start i j : nat)
  (ph pl : string) :
  nth_error phases i = Some ph ->
  nth_error platforms j = Some pl ->
  nth_error
    (flat_map (fun x => map (row_at (fst x) (snd x)) platforms)
       (combine (seq start (length phases)) phases))
    (i * length platforms + j)
  = Some (row_at (start + i) ph pl).
Proof.
  intros Hi Hj.
  assert (Hlt : j < length platforms)
    by (apply nth_error_Some; congruence).
  revert start i Hi.
  induction phases as [|q phases IH]; intros start i Hi.
  - destruct i; discriminate.
  - destruct i as [|i]; simpl in Hi |- *.
    + injection Hi as ->.
      rewrite nth_error_app1 by (rewrite length_map; exact Hlt).
      rewrite nth_error_map, Hj, Nat.add_0_r. reflexivity.
    + rewrite nth_error_app2 by (rewrite length_map; lia).
      rewrite length_map.
      replace (length platforms + i * length platforms + j
               - length platforms)
        with (i * length platforms + j) by lia.
      rewrite (IH (S start) i Hi).
      replace (S start + i) with (start + S i) by lia. reflexivity.
Qed.

Lemma generate_timeline_length (phases platforms : list string) :
  length (generate_timeline phases platforms)
  = length phases * length platforms.
Proof. rewrite generate_timeline_eq. apply rows_from_length. Qed.

(** C2. The timeline has one row per pair of a phase and a platform, in
    row-major order: the row of the phase at position [i] and the platform
    at position [j] sits at position [i * (number of platforms) + j], with
    week "Week i+1", the task text of the template and status "Planned".
    The two-by-two example of the specification comes out as its four rows
    in the stated order. *)
Theorem timeline_row_major (phases platforms : list string) :
  length (generate_timeline phases platforms)
    = length phases * length platforms /\
  (forall i j ph pl,
     nth_error phases i = Some ph ->
     nth_error platforms j = Some pl ->
     nth_error (generate_timeline phases platforms)
       (i * length platforms + j)
     = Some {| Week := "Week " ++ str_of_nat (i + 1);
               Phase := ph;
               Platform := pl;
               Task := "Create " ++ pl ++ " content for " ++ ph;
               Status := "Planned" |}) /\
  generate_timeline ["Awareness"; "Conversion"] ["Instagram"; "Email"] =
    [ mkRow "Week 1" "Awareness" "Instagram"
        "Create Instagram content for Awareness" "Planned";
      mkRow "Week 1" "Awareness" "Email"
        "Create Email content for Awareness" "Planned";
      mkRow "Week 2" "Conversion" "Instagram"
        "Create Instagram content for Conversion" "Planned";
      mkRow "Week 2" "Conversion" "Email"
        "Create Email content for Conversion" "Planned" ].
Proof.
  split; [apply generate_timeline_length | split].
  - intros i j ph pl Hi Hj. rewrite generate_timeline_eq.
    unfold enumerate. rewrite (rows_from_nth _ _ 0 i j ph pl Hi Hj).
    reflexivity.
  - reflexivity.
Qed.

Lemma timeline_row_major_witness :
  nth_error
    (generate_timeline ["Awareness"; "Consideration"; "Retention"]
       ["TikTok"; "Email"])
    (2 * 2 + 1)
  = Some (mkRow "Week 3" "Retention" "Email"
            "Create Email content for Retention" "Planned").
Proof.
  exact (proj1 (proj2 (timeline_row_major
                         ["Awareness"; "Consideration"; "Retention"]
                         ["TikTok"; "Email"]))
           2 1 "Retention" "Email" eq_refl eq_refl).
Defined.

(** With either key absent the handler reads the empty list for it. *)
Lemma timeline_of_absent_key (d : CampaignData) :
  campaign_phases d = None \/ selected_platforms d = None ->
  timeline_of d = [].
Proof.
  intros Habsent. unfold timeline_of. apply length_zero_iff_nil.
  rewrite generate_timeline_length.
  destruct Habsent as [-> | ->]; simpl; lia.
Qed.

(** C8. When either sequence is empty the timeline is empty; the
    generator is a total function, so no error can arise. *)
Theorem timeline_empty_input (phases platforms : list string) :
  phases = [] \/ platforms = [] ->
  generate_timeline phases platforms = [].
Proof.
  intros Hempty. apply length_zero_iff_nil.
  rewrite generate_timeline_length.
  destruct Hempty as [-> | ->]; simpl; lia.
Qed.

Lemma timeline_empty_input_witness :
  generate_timeline [] ["Instagram"; "Email"] = [] /\
  generate_timeline ["Awareness"; "Conversion"] [] = [].
Proof.
  split.
  - apply (timeline_empty_input [] ["Instagram"; "Email"]).
    left. reflexivity.
  - apply (timeline_empty_input ["Awareness"; "Conversion"] []).
    right. reflexivity.
Defined.

End TimelineRows.

(* ===================================================================== *)
(** ** Framing: what a pass leaves alone *)
(* ===================================================================== *)

Section Frame.

Import App Spec.

Variable R : SessionState -> SessionState -> Prop.
Hypothesis R_refl : forall s, R s s.
Hypothesis R_trans : forall s1 s2 s3, R s1 s2 -> R s2 s3 -> R s1 s3.

Lemma respects_ret {A : Type} (a : A) : respects R (ret a).
Proof. intros s. apply R_refl. Qed.

Lemma respects_rerun {A : Type} : respects R (@rerun A).
Proof. intros s. apply R_refl. Qed.

Lemma respects_get_state : respects R get_state.
Proof. intros s. apply R_refl. Qed.

Lemma respects_bind {A B : Type} (m : Script A) (k : A -> Script B) :
  respects R m -> (forall a, respects R (k a)) -> respects R (bind m k).
Proof.
  intros Hm Hk s. specialize (Hm s). unfold exec, bind in *.
  destruct (m s) as [s' [a|]]; simpl in *.
  - eapply R_trans; [exact Hm | apply Hk].
  - exact Hm.
Qed.

Lemma respects_when (b : bool) (body : Script unit) :
  respects R body -> respects R (when b body).
Proof. intros Hb. destruct b; [exact Hb | apply respects_ret]. Qed.

End Frame.

Lemma respects_weaken (R1 R2 : App.SessionState -> App.SessionState -> Prop)
  {A : Type} (m : App.Script A) :
  (forall s s', R1 s s' -> R2 s s') ->
  Spec.respects R1 m -> Spec.respects R2 m.
Proof. intros H12 H1 s. apply H12, H1. Qed.

Create HintDb frame.

(** Structural framing: split binds and guards, close the leaves with the
    hints of the database [frame]. *)
Ltac frame refl trans :=
  repeat first
    [ apply (respects_ret _ refl)
    | apply (respects_rerun _ refl)
    | apply (respects_get_state _ refl)
    | solve [auto with frame]
    | apply (respects_when _ refl)
    | apply (respects_bind _ trans); [| intros ?]
    | match goal with
      | |- Spec.respects _ (if ?b then _ else _) => destruct b
      end ].

Section Session.

Import Py App Spec.

(** *** The prompts are left alone *)

Lemma same_prompts_refl (s : SessionState) : same_prompts s s.
Proof. reflexivity. Qed.

Lemma same_prompts_trans (s1 s2 s3 : SessionState) :
  same_prompts s1 s2 -> same_prompts s2 s3 -> same_prompts s1 s3.
Proof. unfold same_prompts. congruence. Qed.

Lemma same_prompts_set_current_step (i : nat) :
  respects same_prompts (set_current_step i).
Proof. intros s. reflexivity. Qed.

Lemma same_prompts_set_campaign_data (d : CampaignData) :
  respects same_prompts (set_campaign_data d).
Proof. intros s. reflexivity. Qed.

Lemma same_prompts_set_item (setter : CampaignData -> CampaignData) :
  respects same_prompts (set_item setter).
Proof. intros s. reflexivity. Qed.

Hint Resolve same_prompts_set_current_step same_prompts_set_campaign_data
  same_prompts_set_item : frame.

Ltac frame_prompts := frame same_prompts_refl same_prompts_trans.

Lemma same_prompts_sidebar_navigation (ui : Widgets) :
  respects same_prompts (sidebar_navigation ui).
Proof.
  cbv [sidebar_navigation enumerate steps length seq combine for_each_script].
  frame_prompts.
Qed.

Lemma same_prompts_step_foundation (ui : Widgets) :
  respects same_prompts (step_foundation ui).
Proof. unfold step_foundation. frame_prompts. Qed.

Lemma same_prompts_step_platforms (ui : Widgets) :
  respects same_prompts (step_platforms ui).
Proof. unfold step_platforms. frame_prompts. Qed.

Lemma same_prompts_step_content (ui : Widgets) :
  respects same_prompts (step_content ui).
Proof. unfold step_content. frame_prompts. Qed.

Lemma same_prompts_tail_of_step_prompts (ui : Widgets) (s : SessionState) :
  respects same_prompts
    (when (button_back ui) (set_current_step 2 ;; rerun) ;;
     when (button_view_final_plan ui) (set_current_step 4 ;; rerun) ;;
     ret (if button_generate_timeline ui
          then Some (Timeline.timeline_of (campaign_data s))
          else None)).
Proof. frame_prompts. Qed.

Hint Resolve same_prompts_sidebar_navigation same_prompts_step_foundation
  same_prompts_step_platforms same_prompts_step_content : frame.

(** *** Running a pass *)

Lemma exec_bind {A B : Type} (m : Script A) (k : A -> Script B)
  (s : SessionState) :
  exec (bind m k) s =
  match m s with
  | (s', Returned a) => exec (k a) s'
  | (s', Rerun) => s'
  end.
Proof. unfold exec, bind. destruct (m s) as [s' [a|]]; reflexivity. Qed.

Lemma run_bind {A B : Type} (m : Script A) (k : A -> Script B)
  (s : SessionState) :
  bind m k s =
  match m s with
  | (s', Returned a) => k a s'
  | (s', Rerun) => (s', Rerun)
  end.
Proof. reflexivity. Qed.

Lemma sidebar_navigation_eq (ui : Widgets) (s : SessionState) :
  sidebar_navigation ui s =
  (mkSession (campaign_data s) (prompts s) (nav_target ui (current_step s)),
   Returned tt).
Proof.
  cbv [sidebar_navigation enumerate steps length seq combine for_each_script
       nav_target when bind set_current_step ret].
  destruct s as [d ps c]; cbn [campaign_data prompts current_step].
  destruct (button_step ui 0), (button_step ui 1), (button_step ui 2),
    (button_step ui 3), (button_step ui 4); reflexivity.
Qed.

Lemma rendered_step_eq (ui : Widgets) (s : SessionState) :
  rendered_step ui s = nav_target ui (current_step s).
Proof.
  unfold rendered_step, exec. now rewrite sidebar_navigation_eq.
Qed.

Lemma generate_once_eq (s : SessionState) :
  generate_once s =
  (mkSession (campaign_data s)
     match prompts s with
     | [] => CampaignBuilder.generate_prompt_sequence (campaign_data s)
     | _ :: _ => prompts s
     end
     (current_step s),
   Returned tt).
Proof. destruct s as [d [|p ps] c]; reflexivity. Qed.

Lemma reset_campaign_eq (s : SessionState) :
  reset_campaign s = (initial_state, Rerun).
Proof. reflexivity. Qed.

(** *** Prompts that exist are kept *)

Lemma kept_prompts_refl (s : SessionState) : kept_prompts s s.
Proof. intros _. reflexivity. Qed.

Lemma kept_prompts_trans (s1 s2 s3 : SessionState) :
  kept_prompts s1 s2 -> kept_prompts s2 s3 -> kept_prompts s1 s3.
Proof.
  unfold kept_prompts. intros H12 H23 Hne.
  rewrite <- (H12 Hne). apply H23. now rewrite (H12 Hne).
Qed.

Lemma kept_of_same {A : Type} (m : Script A) :
  respects same_prompts m -> respects kept_prompts m.
Proof. apply respects_weaken. intros s s' Hs _. exact Hs. Qed.

Lemma kept_prompts_generate_once : respects kept_prompts generate_once.
Proof.
  intros s Hne. unfold exec. rewrite generate_once_eq. cbn.
  destruct (prompts s); [now elim Hne | reflexivity].
Qed.

Lemma kept_prompts_step_prompts (ui : Widgets) :
  respects kept_prompts (step_prompts ui).
Proof.
  unfold step_prompts.
  apply (respects_bind _ kept_prompts_trans);
    [apply kept_prompts_generate_once | intros _].
  apply (respects_bind _ kept_prompts_trans);
    [apply (respects_get_state _ kept_prompts_refl) | intros s].
  apply kept_of_same, same_prompts_tail_of_step_prompts.
Qed.

Lemma kept_prompts_step_final (ui : Widgets) :
  button_start_new_campaign ui = false ->
  respects kept_prompts (step_final ui).
Proof.
  intros Hnew. unfold step_final. rewrite Hnew.
  apply (respects_ret _ kept_prompts_refl).
Qed.

Lemma kept_prompts_main (ui : Widgets) :
  no_reset ui = true -> respects kept_prompts (main ui).
Proof.
  intros Hnr. apply andb_true_iff in Hnr as [Hreset Hnew].
  apply negb_true_iff in Hreset, Hnew.
  pose proof (kept_prompts_step_final ui Hnew) as Hfinal.
  pose proof (kept_prompts_step_prompts ui) as Hprompts.
  unfold main, sidebar, step_dispatch. rewrite Hreset. cbn [when].
  frame kept_prompts_refl kept_prompts_trans;
    solve [assumption | apply kept_of_same; auto with frame].
Qed.

Lemma kept_prompts_run_passes (uis : list Widgets) (s : SessionState) :
  forallb no_reset uis = true -> kept_prompts s (run_passes uis s).
Proof.
  unfold run_passes, for_each. revert s.
  induction uis as [|ui uis IH]; intros s Hall; simpl in *.
  - apply kept_prompts_refl.
  - apply andb_true_iff in Hall as [Hui Hall].
    eapply kept_prompts_trans; [apply (kept_prompts_main ui Hui) | now apply IH].
Qed.

Lemma main_step3_prompts (ui : Widgets) (s : SessionState) :
  button_reset_campaign ui = false ->
  rendered_step ui s = 3 ->
  prompts (exec (main ui) s) =
  match prompts s with
  | [] => CampaignBuilder.generate_prompt_sequence (campaign_data s)
  | _ :: _ => prompts s
  end.
Proof.
  intros Hreset Hstep. rewrite rendered_step_eq in Hstep.
  unfold main, sidebar. rewrite Hreset. cbn [when].
  rewrite exec_bind, run_bind, sidebar_navigation_eq, Hstep. cbn [ret].
  unfold step_dispatch. rewrite exec_bind. cbn [get_state current_step Nat.eqb].
  unfold step_prompts. rewrite exec_bind, generate_once_eq.
  rewrite exec_bind. cbn [get_state].
  rewrite (same_prompts_tail_of_step_prompts ui _ _). reflexivity.
Qed.

(** *** The step stays one of the five *)

Lemma step_in_range_refl (s : SessionState) : step_in_range s s.
Proof. left. reflexivity. Qed.

Lemma step_in_range_trans (s1 s2 s3 : SessionState) :
  step_in_range s1 s2 -> step_in_range s2 s3 -> step_in_range s1 s3.
Proof. unfold step_in_range. intros [H12|H12] [H23|H23]; lia. Qed.

Lemma step_in_range_set_current_step (i : nat) :
  i < 5 -> respects step_in_range (set_current_step i).
Proof. intros Hi s. right. exact Hi. Qed.

Lemma step_in_range_set_item (setter : CampaignData -> CampaignData) :
  respects step_in_range (set_item setter).
Proof. intros s. left. reflexivity. Qed.

Lemma step_in_range_generate_once : respects step_in_range generate_once.
Proof. intros s. left. unfold exec. now rewrite generate_once_eq. Qed.

Lemma step_in_range_reset_campaign : respects step_in_range reset_campaign.
Proof. intros s. right. cbn. lia. Qed.

Hint Resolve step_in_range_set_current_step step_in_range_set_item
  step_in_range_generate_once step_in_range_reset_campaign : frame.
Hint Extern 1 (_ < 5) => lia : frame.

Lemma step_in_range_main (ui : Widgets) : respects step_in_range (main ui).
Proof.
  unfold main, sidebar, step_dispatch, step_foundation, step_platforms,
    step_content, step_prompts, step_final.
  cbv [sidebar_navigation enumerate steps length seq combine for_each_script].
  frame step_in_range_refl step_in_range_trans.
Qed.

(** *** The claims on the session *)

(** C4. A pass that enters the Prompt Generation step without a reset
    leaves existing prompts exactly as they are, and generates them only
    when there are none; afterwards the prompts are non-empty, so that
    after any further passes without a reset, a later pass (in particular
    one that enters the step again) still has the same prompts, whatever
    was edited in between. *)
Theorem prompts_generated_once
  (ui1 ui2 : Widgets) (between : list Widgets) (s : SessionState) :
  no_reset ui1 = true ->
  rendered_step ui1 s = 3 ->
  forallb no_reset between = true ->
  no_reset ui2 = true ->
  (prompts s <> [] -> prompts (exec (main ui1) s) = prompts s) /\
  (prompts s = [] ->
   prompts (exec (main ui1) s)
   = CampaignBuilder.generate_prompt_sequence (campaign_data s)) /\
  prompts (exec (main ui2) (run_passes between (exec (main ui1) s)))
  = prompts (exec (main ui1) s).
Proof.
  intros Hnr1 Hstep Hbetween Hnr2.
  assert (Hreset : button_reset_campaign ui1 = false).
  { apply andb_true_iff in Hnr1 as [Hr _]. now apply negb_true_iff in Hr. }
  pose proof (main_step3_prompts ui1 s Hreset Hstep) as Hfirst.
  assert (Hne : prompts (exec (main ui1) s) <> []).
  { rewrite Hfirst. destruct (prompts s).
    - apply generate_prompt_sequence_nonempty.
    - discriminate. }
  split; [|split].
  - intros Hs. rewrite Hfirst. destruct (prompts s); [now elim Hs | reflexivity].
  - intros Hs. rewrite Hfirst, Hs. reflexivity.
  - pose proof (kept_prompts_run_passes between _ Hbetween Hne) as Hmid.
    rewrite <- Hmid. apply (kept_prompts_main ui2 Hnr2). now rewrite Hmid.
Qed.

Lemma prompts_generated_once_witness :
  prompts
    (exec (main (click_step 3))
       (run_passes [click_step 1; idle]
          (exec (main (click_step 3)) initial_state)))
  = prompts (exec (main (click_step 3)) initial_state).
Proof.
  exact (proj2 (proj2
           (prompts_generated_once (click_step 3) (click_step 3)
              [click_step 1; idle] initial_state
              eq_refl eq_refl eq_refl eq_refl))).
Defined.

(** C5. In whatever state the session is, a pass in which "Reset
    Campaign" is pressed (or "Start New Campaign" on the final step) ends
    with the whole session replaced by the initial one: step 0, no
    campaign data, no prompts. *)
Theorem reset_replaces_state (ui : Widgets) (s : SessionState) :
  button_reset_campaign ui = true \/
  (button_start_new_campaign ui = true /\ rendered_step ui s = 4) ->
  main ui s = (initial_state, Rerun) /\
  current_step (exec (main ui) s) = 0 /\
  campaign_data (exec (main ui) s) = empty_campaign_data /\
  prompts (exec (main ui) s) = [].
Proof.
  intros Hpressed.
  assert (Hmain : main ui s = (initial_state, Rerun)).
  { unfold main, sidebar. rewrite !run_bind, sidebar_navigation_eq.
    destruct (button_reset_campaign ui) eqn:Hreset.
    - reflexivity.
    - destruct Hpressed as [Hr | [Hnew Hstep]]; [discriminate|].
      rewrite rendered_step_eq in Hstep.
      cbn [when ret]. unfold step_dispatch. rewrite run_bind.
      cbn [get_state current_step]. rewrite Hstep. cbn [Nat.eqb].
      unfold step_final. rewrite Hnew. reflexivity. }
  unfold exec. rewrite Hmain. repeat split.
Qed.

Lemma reset_replaces_state_witness :
  main click_reset
    (mkSession (with_product_name "EcoVibe" empty_campaign_data)
       (CampaignBuilder.generate_prompt_sequence empty_campaign_data) 3)
  = (initial_state, Rerun).
Proof.
  exact (proj1
           (reset_replaces_state click_reset
              (mkSession (with_product_name "EcoVibe" empty_campaign_data)
                 (CampaignBuilder.generate_prompt_sequence
                    empty_campaign_data) 3)
              (or_introl eq_refl))).
Defined.

(** X18. The sidebar loop returns normally and changes nothing but the
    step: it leaves the step as it was when none of its five buttons is
    pressed, and otherwise at the index, below 5, of the last pressed one;
    readings for other indices are not consulted. *)
Theorem sidebar_sets_step_only (ui : Widgets) (s : SessionState) :
  exists c,
    sidebar_navigation ui s
      = (mkSession (campaign_data s) (prompts s) c, Returned tt) /\
    ((c = current_step s /\
      forallb (fun i => negb (button_step ui i)) (seq 0 5) = true) \/
     (Nat.ltb c 5 = true /\
      button_step ui c = true /\
      forallb (fun i => negb (button_step ui i)) (seq (S c) (4 - c)) = true)).
Proof.
  exists (nav_target ui (current_step s)).
  split; [apply sidebar_navigation_eq|].
  unfold nav_target.
  destruct (button_step ui 4) eqn:H4, (button_step ui 3) eqn:H3,
    (button_step ui 2) eqn:H2, (button_step ui 1) eqn:H1,
    (button_step ui 0) eqn:H0;
    cbn; rewrite ?H0, ?H1, ?H2, ?H3, ?H4; cbn;
    first [ left; split; reflexivity | right; repeat split; reflexivity ].
Qed.

End Session.

(* ===================================================================== *)
(** ** What the prompt texts carry *)
(* ===================================================================== *)

Section PromptTexts.

Import Py CampaignBuilder Spec.
Local Open Scope string_scope.

Lemma prefix_empty_r (t : string) : String.prefix t "" = true -> t = "".
Proof. destruct t; [reflexivity | discriminate]. Qed.

Lemma prefix_empty_l (text : string) : String.prefix "" text = true.
Proof. now destruct text. Qed.

Lemma prefix_app_l (t a rest : string) :
  String.prefix t a = true -> String.prefix t (a ++ rest) = true.
Proof.
  revert t. induction a as [|c a IH]; intros t Ht.
  - apply prefix_empty_r in Ht. subst t. apply prefix_empty_l.
  - destruct t as [|c' t]; [reflexivity|]. simpl in Ht |- *.
    destruct (ascii_dec c' c); [now apply IH | discriminate].
Qed.

Lemma occursb_app_l (t a rest : string) :
  occursb t a = true -> occursb t (a ++ rest) = true.
Proof.
  induction a as [|c a IH]; intros Ht.
  - simpl in Ht. rewrite orb_false_r in Ht.
    apply prefix_empty_r in Ht. subst t.
    rewrite occursb_unfold, prefix_empty_l. reflexivity.
  - rewrite occursb_unfold in Ht. apply orb_true_iff in Ht.
    change (String c a ++ rest) with (String c (a ++ rest)).
    rewrite occursb_unfold. apply orb_true_iff.
    destruct Ht as [Ht | Ht].
    + left. now apply (prefix_app_l t (String c a) rest).
    + right. now apply IH.
Qed.

Lemma occursb_refl (t : string) : occursb t t = true.
Proof.
  rewrite occursb_unfold.
  replace (String.prefix t t) with true; [reflexivity|].
  symmetry. induction t as [|c t IH]; simpl; [reflexivity|].
  destruct (ascii_dec c c) as [_|Hneq]; [exact IH | now elim Hneq].
Qed.

(** Every joined item occurs in the joined text. *)
Lemma occursb_join (sep p : string) (items : list string) :
  In p items -> occursb p (join sep items) = true.
Proof.
  unfold join. induction items as [|x items IH]; intros Hin.
  - destruct Hin.
  - destruct items as [|y items].
    + destruct Hin as [-> | []]. apply occursb_refl.
    + change (String.concat sep (x :: y :: items))
        with (x ++ sep ++ String.concat sep (y :: items)).
      destruct Hin as [-> | Hin].
      * apply occursb_here.
      * do 2 apply occursb_skip. now apply IH.
Qed.

(** X1. Let [name], [audience], [message] and [l] be the product name,
    the target audience, the key message and the platform selection the
    data stand for (the stored values, or the defaults of absent keys).
    The first record of the output is the Foundation prompt for all
    platforms, and its text carries [name], [audience], [message], the
    comma-joined list [l] and hence every platform of [l]. *)
Theorem foundation_prompt_embeds_inputs
  (d : CampaignData) (name audience message : string) (l : list string) :
  stored_or_default (product_name d) "Your Product" name ->
  stored_or_default (target_audience d) "your target audience" audience ->
  stored_or_default (key_message d) "your key message" message ->
  stored_or_default (selected_platforms d) ["Instagram"; "TikTok"]%list l ->
  exists r,
    nth_error (generate_prompt_sequence d) 0 = Some r /\
    phase r = "Foundation" /\
    platform r = "All" /\
    occursb name (prompt r) = true /\
    occursb audience (prompt r) = true /\
    occursb message (prompt r) = true /\
    occursb (join ", " l) (prompt r) = true /\
    forallb (fun p => occursb p (prompt r)) l = true.
Proof.
  intros Hname Haudience Hmessage Hl.
  apply get_stored_or_default in Hname, Haudience, Hmessage, Hl.
  rewrite generate_prompt_sequence_eq, Hname, Haudience, Hmessage, Hl.
  eexists. split; [reflexivity|].
  cbn [phase platform prompt]. unfold foundation_text.
  repeat split.
  - do 5 apply occursb_skip. apply occursb_here.
  - do 8 apply occursb_skip. apply occursb_here.
  - do 11 apply occursb_skip. apply occursb_here.
  - do 14 apply occursb_skip. apply occursb_here.
  - apply forallb_forall. intros p Hin.
    do 14 apply occursb_skip. apply occursb_app_l. now apply occursb_join.
Qed.

Lemma foundation_prompt_embeds_inputs_witness :
  exists r,
    nth_error
      (generate_prompt_sequence
         (mkCampaignData (Some "EcoVibe") (Some "students") None
            (Some "Refill, not landfill") None None
            (Some ["Email"; "LinkedIn"]%list) None)) 0 = Some r /\
    phase r = "Foundation" /\
    platform r = "All" /\
    occursb "EcoVibe" (prompt r) = true /\
    occursb "students" (prompt r) = true /\
    occursb "Refill, not landfill" (prompt r) = true /\
    occursb (join ", " ["Email"; "LinkedIn"]%list) (prompt r) = true /\
    forallb (fun p => occursb p (prompt r)) ["Email"; "LinkedIn"]%list = true.
Proof.
  apply (foundation_prompt_embeds_inputs
           (mkCampaignData (Some "EcoVibe") (Some "students") None
              (Some "Refill, not landfill") None None
              (Some ["Email"; "LinkedIn"]%list) None)
           "EcoVibe" "students" "Refill, not landfill"
           ["Email"; "LinkedIn"]%list); reflexivity.
Defined.

(** X2. Let [l] be the platform selection and [name] the product name the
    data stand for (stored, or the default of an absent key).  The phase
    column of the output is Foundation, then Content Creation once per
    entry of [l], then Asset Development; the platform column is "All",
    the entries of [l] in order, "All"; and the closing record's text
    carries [name]. *)
Theorem prompt_columns (d : CampaignData) (l : list string) (name : string) :
  stored_or_default (selected_platforms d) ["Instagram"; "TikTok"]%list l ->
  stored_or_default (product_name d) "Your Product" name ->
  map phase (generate_prompt_sequence d) =
    ("Foundation" :: repeat "Content Creation" (length l)
     ++ ["Asset Development"])%list /\
  map platform (generate_prompt_sequence d) =
    ("All" :: l ++ ["All"])%list /\
  exists r,
    nth_error (generate_prompt_sequence d) (length l + 1) = Some r /\
    occursb name (prompt r) = true.
Proof.
  intros Hl Hname. apply get_stored_or_default in Hl, Hname.
  rewrite generate_prompt_sequence_eq, Hl, Hname. split; [|split].
  - cbn [map phase]. rewrite map_app, map_map. cbn [map phase].
    now rewrite map_const.
  - cbn [map platform]. rewrite map_app, map_map. cbn [map platform].
    now rewrite map_id.
  - eexists. split.
    + rewrite Nat.add_1_r. cbn [nth_error].
      rewrite nth_error_app2 by (rewrite length_map; lia).
      rewrite length_map, Nat.sub_diag. reflexivity.
    + cbn [prompt]. unfold asset_text.
      do 3 apply occursb_skip. apply occursb_here.
Qed.

Lemma prompt_columns_witness :
  map phase
    (generate_prompt_sequence
       (mkCampaignData (Some "EcoVibe") None None None None None
          (Some ["Email"; "LinkedIn"; "Facebook"]%list) None)) =
    ("Foundation" :: repeat "Content Creation" 3
     ++ ["Asset Development"])%list /\
  map platform
    (generate_prompt_sequence
       (mkCampaignData (Some "EcoVibe") None None None None None
          (Some ["Email"; "LinkedIn"; "Facebook"]%list) None)) =
    ("All" :: ["Email"; "LinkedIn"; "Facebook"] ++ ["All"])%list /\
  exists r,
    nth_error
      (generate_prompt_sequence
         (mkCampaignData (Some "EcoVibe") None None None None None
            (Some ["Email"; "LinkedIn"; "Facebook"]%list) None)) (3 + 1)
      = Some r /\
    occursb "EcoVibe" (prompt r) = true.
Proof.
  apply (prompt_columns
           (mkCampaignData (Some "EcoVibe") None None None None None
              (Some ["Email"; "LinkedIn"; "Facebook"]%list) None)
           ["Email"; "LinkedIn"; "Facebook"]%list "EcoVibe"); reflexivity.
Defined.

(** X3. The campaign duration, the campaign goal and the budget tier are
    collected but never read: whatever is stored under them, the prompts
    and the timeline are the same.  The timeline does not read the product
    name, the audience or the key message either. *)
Theorem unused_keys_do_not_matter (d : CampaignData)
  (duration goal tier name audience message : string) :
  generate_prompt_sequence
    (App.with_campaign_duration duration
       (App.with_campaign_goal goal (App.with_budget_tier tier d)))
  = generate_prompt_sequence d /\
  Timeline.timeline_of
    (App.with_campaign_duration duration
       (App.with_campaign_goal goal (App.with_budget_tier tier d)))
  = Timeline.timeline_of d /\
  Timeline.timeline_of
    (App.with_product_name name
       (App.with_target_audience audience
          (App.with_key_message message d)))
  = Timeline.timeline_of d.
Proof.
  split; [|split].
  - now apply generate_prompt_sequence_reads.
  - reflexivity.
  - reflexivity.
Qed.

End PromptTexts.

(* ===================================================================== *)
(** ** Reading the timeline by position *)
(* ===================================================================== *)

Section TimelineIndex.

Import Py Timeline Spec.

(** Decimal printing loses nothing. *)
Lemma str_of_nat_inj (n m : nat) : str_of_nat n = str_of_nat m -> n = m.
Proof.
  unfold str_of_nat. intros H.
  apply (f_equal NilEmpty.uint_of_string) in H.
  rewrite !NilEmpty.usu in H. injection H as H.
  apply (f_equal Nat.of_uint) in H.
  now rewrite !DecimalNat.Unsigned.of_to in H.
Qed.

(** The row at position [k] is the row of phase [k / m] and platform
    [k mod m], for [m] platforms. *)
Lemma timeline_nth (phases platforms : list string) (k : nat) :
  k < length phases * length platforms ->
  exists ph pl,
    nth_error phases (k / length platforms) = Some ph /\
    nth_error platforms (k mod length platforms) = Some pl /\
    nth_error (generate_timeline phases platforms) k
      = Some (row_at (k / length platforms) ph pl).
Proof.
  intros Hk.
  assert (Hm : length platforms <> 0) by (intros Hz; rewrite Hz in Hk; lia).
  assert (Hi : k / length platforms < length phases).
  { apply Nat.Div0.div_lt_upper_bound. lia. }
  assert (Hj : k mod length platforms < length platforms)
    by (now apply Nat.mod_upper_bound).
  destruct (nth_error phases (k / length platforms)) as [ph|] eqn:Eph;
    [| apply nth_error_None in Eph; lia].
  destruct (nth_error platforms (k mod length platforms)) as [pl|] eqn:Epl;
    [| apply nth_error_None in Epl; lia].
  exists ph, pl. repeat split.
  rewrite generate_timeline_eq. unfold enumerate.
  pose proof (rows_from_nth platforms phases 0 _ _ ph pl Eph Epl) as Hrow.
  replace (k / length platforms * length platforms + k mod length platforms)
    with k in Hrow
    by (rewrite (Nat.div_mod_eq k (length platforms)) at 1; lia).
  exact Hrow.
Qed.

(** X4. Reading the timeline by position: with [m] platforms, the row at
    position [k] is the one of the phase at position [k / m] and of the
    platform at position [k mod m], in week [k / m + 1]. *)
Theorem timeline_row_at_index (phases platforms : list string) (k : nat) :
  k < length (generate_timeline phases platforms) ->
  exists ph pl,
    nth_error phases (k / length platforms) = Some ph /\
    nth_error platforms (k mod length platforms) = Some pl /\
    nth_error (generate_timeline phases platforms) k
      = Some {| Week := "Week " ++ str_of_nat (k / length platforms + 1);
                Phase := ph;
                Platform := pl;
                Task := "Create " ++ pl ++ " content for " ++ ph;
                Status := "Planned" |}.
Proof.
  intros Hk. rewrite generate_timeline_length in Hk.
  exact (timeline_nth phases platforms k Hk).
Qed.

Lemma timeline_row_at_index_witness :
  exists ph pl,
    nth_error ["Awareness"; "Consideration"; "Retention"] (5 / 2) = Some ph /\
    nth_error ["TikTok"; "Email"] (5 mod 2) = Some pl /\
    nth_error
      (generate_timeline ["Awareness"; "Consideration"; "Retention"]
         ["TikTok"; "Email"]) 5
      = Some {| Week := "Week " ++ str_of_nat (5 / 2 + 1);
                Phase := ph;
                Platform := pl;
                Task := "Create " ++ pl ++ " content for " ++ ph;
                Status := "Planned" |}.
Proof.
  apply (timeline_row_at_index ["Awareness"; "Consideration"; "Retention"]
           ["TikTok"; "Email"] 5).
  vm_compute. lia.
Defined.

(** X5. Two rows of a timeline carry the same week label exactly when
    they belong to the same phase position: week labels tell the phase
    positions apart, and the platforms of one phase share a week. *)
Theorem week_identifies_phase_position
  (phases platforms : list string) (k k' : nat) (r r' : TimelineRow) :
  nth_error (generate_timeline phases platforms) k = Some r ->
  nth_error (generate_timeline phases platforms) k' = Some r' ->
  (Week r = Week r' <-> k / length platforms = k' / length platforms).
Proof.
  intros Hr Hr'.
  assert (Hk : k < length phases * length platforms).
  { rewrite <- generate_timeline_length. apply nth_error_Some. congruence. }
  assert (Hk' : k' < length phases * length platforms).
  { rewrite <- generate_timeline_length. apply nth_error_Some. congruence. }
  destruct (timeline_nth phases platforms k Hk) as [ph [pl [_ [_ Erow]]]].
  destruct (timeline_nth phases platforms k' Hk') as [ph' [pl' [_ [_ Erow']]]].
  rewrite Hr in Erow. rewrite Hr' in Erow'.
  injection Erow as ->. injection Erow' as ->.
  cbn [Week row_at]. split.
  - intros Hweek. cbn in Hweek. injection Hweek as Hweek.
    apply str_of_nat_inj in Hweek. lia.
  - intros ->. reflexivity.
Qed.

Lemma week_identifies_phase_position_witness :
  Week (mkRow "Week 2" "Conversion" "Instagram"
          "Create Instagram content for Conversion" "Planned")
  = Week (mkRow "Week 2" "Conversion" "Email"
            "Create Email content for Conversion" "Planned")
  <-> 2 / 2 = 3 / 2.
Proof.
  apply (week_identifies_phase_position ["Awareness"; "Conversion"]
           ["Instagram"; "Email"] 2 3); reflexivity.
Defined.



End TimelineIndex.

(* ===================================================================== *)
(** ** Closed forms of the steps *)
(* ===================================================================== *)

Section StepForms.

Import Py App Spec.

Lemma for_each_ticks (tick : string -> bool) (items : list string)
  (start : nat) (init : list string) :
  for_each (combine (seq start (length items)) items)
    (fun '(i, platform) selected =>
       if tick platform then append platform selected else selected)
    init
  = init ++ filter tick items.
Proof.
  unfold for_each, append. revert start init.
  induction items as [|x items IH]; intros start init; simpl.
  - now rewrite app_nil_r.
  - rewrite IH. destruct (tick x); [now rewrite <- app_assoc | reflexivity].
Qed.

Lemma ticked_platforms_eq (ui : Widgets) :
  ticked_platforms ui
  = filter (checkbox_platform ui) CampaignBuilder.platforms.
Proof.
  unfold ticked_platforms, enumerate. cbv zeta.
  apply (for_each_ticks (checkbox_platform ui) CampaignBuilder.platforms 0 []).
Qed.

Lemma NoDup_platforms : NoDup CampaignBuilder.platforms.
Proof.
  unfold CampaignBuilder.platforms.
  repeat (constructor; [simpl; intuition discriminate|]). constructor.
Qed.

Lemma nav_target_no_jump (ui : Widgets) (c : nat) :
  no_jump ui = true -> nav_target ui c = c.
Proof.
  unfold no_jump, nav_target. cbn [seq forallb].
  destruct (button_step ui 0), (button_step ui 1), (button_step ui 2),
    (button_step ui 3), (button_step ui 4); (discriminate || reflexivity).
Qed.

Lemma main_cases (ui : Widgets) (s : SessionState) :
  main ui s =
  if button_reset_campaign ui then (initial_state, Rerun)
  else step_dispatch ui
         (mkSession (campaign_data s) (prompts s) (rendered_step ui s)).
Proof.
  rewrite rendered_step_eq. unfold main, sidebar.
  rewrite !run_bind, sidebar_navigation_eq.
  destruct (button_reset_campaign ui); reflexivity.
Qed.

Lemma step_foundation_eq (ui : Widgets) (s : SessionState) :
  step_foundation ui s =
  (mkSession
     (mkCampaignData
        (Some (text_product_name ui)) (Some (text_target_audience ui))
        (Some (select_campaign_duration ui)) (Some (text_key_message ui))
        (Some (select_campaign_goal ui)) (Some (select_budget_tier ui))
        (selected_platforms (campaign_data s))
        (campaign_phases (campaign_data s)))
     (prompts s)
     (if button_save_foundation ui then 1 else current_step s),
   if button_save_foundation ui then Rerun else Returned tt).
Proof.
  unfold step_foundation. destruct (button_save_foundation ui); reflexivity.
Qed.

Lemma step_platforms_eq (ui : Widgets) (s : SessionState) :
  step_platforms ui s =
  (mkSession
     (with_selected_platforms (ticked_platforms ui) (campaign_data s))
     (prompts s)
     (if button_back ui then 0
      else if button_continue_content ui then 2 else current_step s),
   if button_back ui || button_continue_content ui
   then Rerun else Returned tt).
Proof.
  unfold step_platforms.
  destruct (button_back ui), (button_continue_content ui); reflexivity.
Qed.

Lemma step_content_eq (ui : Widgets) (s : SessionState) :
  step_content ui s =
  (mkSession
     (with_campaign_phases (multiselect_phases ui) (campaign_data s))
     (prompts s)
     (if button_back ui then 1
      else if button_generate_prompts ui then 3 else current_step s),
   if button_back ui || button_generate_prompts ui
   then Rerun else Returned tt).
Proof.
  unfold step_content.
  destruct (button_back ui), (button_generate_prompts ui); reflexivity.
Qed.

Lemma step_prompts_eq (ui : Widgets) (s : SessionState) :
  step_prompts ui s =
  (mkSession (campaign_data s)
     match prompts s with
     | [] => CampaignBuilder.generate_prompt_sequence (campaign_data s)
     | _ :: _ => prompts s
     end
     (if button_back ui then 2
      else if button_view_final_plan ui then 4 else current_step s),
   if button_back ui || button_view_final_plan ui
   then Rerun
   else Returned
          (if button_generate_timeline ui
           then Some (Timeline.timeline_of (campaign_data s))
           else None)).
Proof.
  unfold step_prompts. rewrite run_bind, generate_once_eq.
  destruct (button_back ui), (button_view_final_plan ui); reflexivity.
Qed.

Lemma step_final_eq (ui : Widgets) (s : SessionState) :
  step_final ui s =
  if button_start_new_campaign ui then (initial_state, Rerun)
  else (s, Returned tt).
Proof.
  unfold step_final. destruct (button_start_new_campaign ui); reflexivity.
Qed.

End StepForms.

(** Case analysis of a pass: on the reset button, on the rendered step,
    then through the closed form of that step. *)
Ltac pass_cases ui s :=
  rewrite ?(main_cases ui s);
  unfold App.exec; rewrite ?(main_cases ui s);
  destruct (App.button_reset_campaign ui) eqn:?;
  [ | unfold App.step_dispatch; rewrite run_bind ];
  cbn [App.get_state App.current_step];
  [ | destruct (Spec.rendered_step ui s) as [|[|[|[|[|?]]]]] eqn:?;
      cbn [Nat.eqb];
      rewrite ?run_bind, ?step_foundation_eq, ?step_platforms_eq,
        ?step_content_eq, ?step_prompts_eq, ?step_final_eq ].

(* ===================================================================== *)
(** ** What a pass does to the session *)
(* ===================================================================== *)

Section Passes.

Import Py App Spec.

Ltac split_buttons :=
  cbn -[ticked_platforms];
  repeat match goal with
         | |- context [if ?b then _ else _] => destruct b
         end;
  cbn -[ticked_platforms].

Lemma Forall2_trans {A : Type} (R : A -> A -> Prop) (l1 l2 l3 : list A) :
  (forall x y z, R x y -> R y z -> R x z) ->
  Forall2 R l1 l2 -> Forall2 R l2 l3 -> Forall2 R l1 l3.
Proof.
  intros Htrans H12. revert l3.
  induction H12 as [|x y l1 l2 Hxy _ IH]; intros l3 H23.
  - inversion H23. constructor.
  - inversion H23 as [|y' z l2' l3' Hyz H23' E1 E2]; subst.
    constructor; [eapply Htrans; eassumption | now apply IH].
Qed.

Lemma keys_kept_refl (s : SessionState) : keys_kept s s.
Proof.
  unfold keys_kept. induction (stored_keys (campaign_data s));
    constructor; auto.
Qed.

Lemma keys_kept_trans (s1 s2 s3 : SessionState) :
  keys_kept s1 s2 -> keys_kept s2 s3 -> keys_kept s1 s3.
Proof. unfold keys_kept. apply Forall2_trans. auto. Qed.

Lemma keys_kept_main (ui : Widgets) (s : SessionState) :
  no_reset ui = true -> keys_kept s (exec (main ui) s).
Proof.
  intros Hnr. apply andb_true_iff in Hnr as [Hreset Hnew].
  apply negb_true_iff in Hreset, Hnew.
  unfold keys_kept, stored_keys.
  pass_cases ui s; try discriminate; rewrite ?Hnew;
    split_buttons; repeat constructor; auto.
Qed.

Lemma platform_pass (ui : Widgets) (s : SessionState) :
  button_reset_campaign ui = false ->
  rendered_step ui s = 1 ->
  campaign_data (exec (main ui) s)
    = with_selected_platforms
        (filter (checkbox_platform ui) CampaignBuilder.platforms)
        (campaign_data s) /\
  prompts (exec (main ui) s) = prompts s.
Proof.
  intros Hreset Hstep. rewrite <- ticked_platforms_eq.
  pass_cases ui s; try discriminate. split_buttons; split; reflexivity.
Qed.

Lemma run_passes_invariant (I : SessionState -> Prop) :
  (forall ui s, I s -> I (exec (main ui) s)) ->
  I initial_state ->
  forall uis, I (run_passes uis initial_state).
Proof.
  intros Hstep Hinit uis. unfold run_passes, for_each.
  generalize initial_state Hinit.
  induction uis as [|ui uis IH]; intros s Hs; simpl.
  - exact Hs.
  - apply IH, Hstep, Hs.
Qed.

Lemma selection_ok_main (ui : Widgets) (s : SessionState) :
  selection_ok s -> selection_ok (exec (main ui) s).
Proof.
  intros Hs. unfold selection_ok in *.
  pass_cases ui s; try exact I; split_buttons;
    try exact Hs; try exact I.
  all: rewrite ticked_platforms_eq;
    (split; [apply NoDup_filter, NoDup_platforms | apply incl_filter]).
Qed.

Lemma prompts_ok_main (ui : Widgets) (s : SessionState) :
  prompts_ok s -> prompts_ok (exec (main ui) s).
Proof.
  intros Hs. unfold prompts_ok in *.
  pass_cases ui s; [left; reflexivity | ..]; split_buttons;
    solve [exact Hs | left; reflexivity | right; eexists; reflexivity].
Qed.

(** X7. Without a sidebar jump and without a reset, a pass moves the
    wizard by at most one step: it stays, advances by one or retreats by
    one. *)
Theorem pass_moves_one_step (ui : Widgets) (s : SessionState) :
  no_jump ui = true ->
  no_reset ui = true ->
  current_step (exec (main ui) s) = current_step s \/
  current_step (exec (main ui) s) = current_step s + 1 \/
  current_step (exec (main ui) s) + 1 = current_step s.
Proof.
  intros Hjump Hnr. apply andb_true_iff in Hnr as [Hreset Hnew].
  apply negb_true_iff in Hreset, Hnew.
  pose proof (rendered_step_eq ui s) as Hstep.
  rewrite (nav_target_no_jump ui _ Hjump) in Hstep.
  pass_cases ui s; try discriminate; rewrite <- Hstep, ?Hnew;
    split_buttons; lia.
Qed.

Lemma pass_moves_one_step_witness :
  current_step (exec (main idle) (mkSession empty_campaign_data [] 2)) = 2 \/
  current_step (exec (main idle) (mkSession empty_campaign_data [] 2))
    = 2 + 1 \/
  current_step (exec (main idle) (mkSession empty_campaign_data [] 2)) + 1
    = 2.
Proof.
  apply (pass_moves_one_step idle (mkSession empty_campaign_data [] 2));
    reflexivity.
Defined.


(** X8. Without a reset no key is ever removed from the campaign data:
    after any sequence of passes in which neither resetting button is
    pressed, every key that was present is still present.  This is about
    the keys only; the value under a key is overwritten whenever the step
    that owns it is rendered again. *)
Theorem no_key_is_dropped (uis : list Widgets) (s : SessionState) :
  forallb no_reset uis = true ->
  keys_kept s (run_passes uis s).
Proof.
  unfold run_passes, for_each. revert s.
  induction uis as [|ui uis IH]; intros s Hall; simpl in *.
  - apply keys_kept_refl.
  - apply andb_true_iff in Hall as [Hui Hall].
    eapply keys_kept_trans; [apply (keys_kept_main ui s Hui) | now apply IH].
Qed.

Lemma no_key_is_dropped_witness :
  keys_kept
    (mkSession (with_product_name "EcoVibe" empty_campaign_data) [] 1)
    (run_passes [ticking ["Email"]; click_step 3; idle]
       (mkSession (with_product_name "EcoVibe" empty_campaign_data) [] 1)).
Proof.
  apply (no_key_is_dropped [ticking ["Email"]; click_step 3; idle]
           (mkSession (with_product_name "EcoVibe" empty_campaign_data) [] 1)).
  reflexivity.
Defined.

(** X9. A pass that renders Prompt Generation or the Execution Plan
    without a reset never writes to the campaign data. *)
Theorem late_steps_keep_data (ui : Widgets) (s : SessionState) :
  no_reset ui = true ->
  3 <= rendered_step ui s ->
  campaign_data (exec (main ui) s) = campaign_data s.
Proof.
  intros Hnr Hstep. apply andb_true_iff in Hnr as [Hreset Hnew].
  apply negb_true_iff in Hreset, Hnew.
  pass_cases ui s; try discriminate; try lia; rewrite ?Hnew;
    split_buttons; reflexivity.
Qed.

Lemma late_steps_keep_data_witness :
  campaign_data
    (exec (main (click_step 3))
       (mkSession (with_product_name "EcoVibe" empty_campaign_data) [] 0))
  = with_product_name "EcoVibe" empty_campaign_data.
Proof.
  apply (late_steps_keep_data (click_step 3)
           (mkSession (with_product_name "EcoVibe" empty_campaign_data) [] 0)).
  - reflexivity.
  - vm_compute. lia.
Defined.

(** X10. A pass that renders Campaign Foundation stores the six field
    readings as they are, empty text included, and leaves the two list
    keys alone; from then on the generator's defaults for product name,
    audience and key message no longer apply: the Foundation prompt is
    built from the readings. *)
Theorem foundation_step_overrides_defaults (ui : Widgets) (s : SessionState) :
  button_reset_campaign ui = false ->
  rendered_step ui s = 0 ->
  campaign_data (exec (main ui) s) =
    mkCampaignData
      (Some (text_product_name ui)) (Some (text_target_audience ui))
      (Some (select_campaign_duration ui)) (Some (text_key_message ui))
      (Some (select_campaign_goal ui)) (Some (select_budget_tier ui))
      (selected_platforms (campaign_data s))
      (campaign_phases (campaign_data s)) /\
  nth_error
    (CampaignBuilder.generate_prompt_sequence
       (campaign_data (exec (main ui) s))) 0 =
    Some {| phase := "Foundation";
            platform := "All";
            prompt :=
              CampaignBuilder.foundation_text
                (text_product_name ui) (text_target_audience ui)
                (text_key_message ui)
                (get (selected_platforms (campaign_data s))
                   ["Instagram"; "TikTok"]) |}.
Proof.
  intros Hreset Hstep.
  assert (Hdata :
    campaign_data (exec (main ui) s) =
    mkCampaignData
      (Some (text_product_name ui)) (Some (text_target_audience ui))
      (Some (select_campaign_duration ui)) (Some (text_key_message ui))
      (Some (select_campaign_goal ui)) (Some (select_budget_tier ui))
      (selected_platforms (campaign_data s))
      (campaign_phases (campaign_data s))).
  { pass_cases ui s; try discriminate. split_buttons; reflexivity. }
  split; [exact Hdata|].
  rewrite Hdata, generate_prompt_sequence_eq. reflexivity.
Qed.

Lemma foundation_step_overrides_defaults_witness :
  campaign_data (exec (main idle) initial_state) =
    mkCampaignData (Some "") (Some "") (Some "2 weeks") (Some "")
      (Some "Brand Awareness") (Some "Bootstrapped") None None /\
  nth_error
    (CampaignBuilder.generate_prompt_sequence
       (campaign_data (exec (main idle) initial_state))) 0 =
    Some {| phase := "Foundation";
            platform := "All";
            prompt :=
              CampaignBuilder.foundation_text "" "" ""
                ["Instagram"; "TikTok"] |}.
Proof.
  apply (foundation_step_overrides_defaults idle initial_state); reflexivity.
Defined.

(** X11. A pass that renders Platform Selection stores the ticked
    platforms in catalog order, whatever was stored before: a
    duplicate-free list of catalog platforms; the prompts are not
    touched. *)
Theorem platform_step_stores_ticks (ui : Widgets) (s : SessionState) :
  button_reset_campaign ui = false ->
  rendered_step ui s = 1 ->
  selected_platforms (campaign_data (exec (main ui) s))
    = Some (filter (checkbox_platform ui) CampaignBuilder.platforms) /\
  NoDup (filter (checkbox_platform ui) CampaignBuilder.platforms) /\
  incl (filter (checkbox_platform ui) CampaignBuilder.platforms)
    CampaignBuilder.platforms /\
  prompts (exec (main ui) s) = prompts s.
Proof.
  intros Hreset Hstep.
  destruct (platform_pass ui s Hreset Hstep) as [Hdata Hprompts].
  repeat split.
  - rewrite Hdata. reflexivity.
  - apply NoDup_filter, NoDup_platforms.
  - apply incl_filter.
  - exact Hprompts.
Qed.

Lemma platform_step_stores_ticks_witness :
  selected_platforms
    (campaign_data
       (exec (main (ticking ["Email"; "Instagram"; "Email"]))
          (mkSession empty_campaign_data [] 1)))
  = Some ["Instagram"; "Email"].
Proof.
  exact (proj1
           (platform_step_stores_ticks
              (ticking ["Email"; "Instagram"; "Email"])
              (mkSession empty_campaign_data [] 1) eq_refl eq_refl)).
Defined.

(** X12. Ticks decide the prompts: when a pass on Platform Selection is
    followed by the first pass on Prompt Generation, the generated prompts
    are one frame record, one record per ticked platform in catalog order,
    and the closing frame record. *)
Theorem ticks_determine_prompts (ui1 ui2 : Widgets) (s : SessionState) :
  prompts s = [] ->
  button_reset_campaign ui1 = false ->
  rendered_step ui1 s = 1 ->
  button_reset_campaign ui2 = false ->
  rendered_step ui2 (exec (main ui1) s) = 3 ->
  map platform (prompts (exec (main ui2) (exec (main ui1) s)))
    = "All" :: filter (checkbox_platform ui1) CampaignBuilder.platforms
      ++ ["All"] /\
  length (prompts (exec (main ui2) (exec (main ui1) s)))
    = length (filter (checkbox_platform ui1) CampaignBuilder.platforms) + 2.
Proof.
  intros Hempty Hreset1 Hstep1 Hreset2 Hstep2.
  destruct (platform_pass ui1 s Hreset1 Hstep1) as [Hdata Hprompts].
  rewrite (main_step3_prompts ui2 _ Hreset2 Hstep2), Hprompts, Hempty.
  split.
  - rewrite generate_prompt_sequence_eq, Hdata. cbn [map platform get
      selected_platforms with_selected_platforms].
    rewrite map_app, map_map. cbn [map platform]. now rewrite map_id.
  - rewrite generate_prompt_sequence_length, Hdata. reflexivity.
Qed.

Lemma ticks_determine_prompts_witness :
  map platform
    (prompts
       (exec (main (click_step 3))
          (exec (main (ticking ["LinkedIn"; "TikTok"]))
             (mkSession empty_campaign_data [] 1))))
  = ["All"; "TikTok"; "LinkedIn"; "All"].
Proof.
  exact (proj1
           (ticks_determine_prompts (ticking ["LinkedIn"; "TikTok"])
              (click_step 3) (mkSession empty_campaign_data [] 1)
              eq_refl eq_refl eq_refl eq_refl eq_refl)).
Defined.

(** X13. In every state a session can reach from its start, the current
    step is one of the five. *)
Theorem reachable_step_in_range (uis : list Widgets) :
  current_step (run_passes uis initial_state) < 5.
Proof.
  apply (run_passes_invariant (fun s => current_step s < 5)).
  - intros ui s Hs. destruct (step_in_range_main ui s) as [Hsame | Hlt].
    + now rewrite Hsame.
    + exact Hlt.
  - cbn. lia.
Qed.

(** X14. In every state a session can reach from its start, a stored
    platform selection is a duplicate-free list of catalog platforms. *)
Theorem reachable_selection_ok (uis : list Widgets) :
  selection_ok (run_passes uis initial_state).
Proof.
  apply (run_passes_invariant selection_ok).
  - apply selection_ok_main.
  - exact I.
Qed.

(** X15. In every state a session can reach from its start, the prompts
    are either absent or the generator's output for some campaign data;
    they are never a partial or edited list. *)
Theorem reachable_prompts_ok (uis : list Widgets) :
  prompts (run_passes uis initial_state) = [] \/
  exists d,
    prompts (run_passes uis initial_state)
    = CampaignBuilder.generate_prompt_sequence d.
Proof.
  apply (run_passes_invariant prompts_ok).
  - apply prompts_ok_main.
  - left. reflexivity.
Qed.

(** X16. The Execution Plan step is read-only: a pass on it without a
    sidebar jump and without a reset returns normally and leaves the whole
    session exactly as it was; there is no way forward from the last
    step. *)
Theorem final_step_is_read_only (ui : Widgets) (s : SessionState) :
  no_jump ui = true ->
  no_reset ui = true ->
  current_step s = 4 ->
  main ui s = (s, Returned None).
Proof.
  intros Hjump Hnr Hfour. apply andb_true_iff in Hnr as [Hreset Hnew].
  apply negb_true_iff in Hreset, Hnew.
  pose proof (rendered_step_eq ui s) as Hstep.
  rewrite (nav_target_no_jump ui _ Hjump), Hfour in Hstep.
  rewrite main_cases, Hreset, Hstep.
  unfold step_dispatch. rewrite run_bind. cbn [get_state current_step Nat.eqb].
  rewrite run_bind, step_final_eq, Hnew. cbn [ret].
  destruct s as [d ps c]. cbn in Hfour. now subst c.
Qed.

Lemma final_step_is_read_only_witness :
  main idle
    (mkSession (with_product_name "EcoVibe" empty_campaign_data)
       (CampaignBuilder.generate_prompt_sequence empty_campaign_data) 4)
  = (mkSession (with_product_name "EcoVibe" empty_campaign_data)
       (CampaignBuilder.generate_prompt_sequence empty_campaign_data) 4,
     Returned None).
Proof.
  apply (final_step_is_read_only idle
           (mkSession (with_product_name "EcoVibe" empty_campaign_data)
              (CampaignBuilder.generate_prompt_sequence empty_campaign_data)
              4)); reflexivity.
Defined.

(** X17. A pass shows a timeline only when it renders Prompt Generation
    with the timeline button pressed, and the table shown is the timeline
    of the campaign data the session held when the pass began. *)
Theorem timeline_shown_only_on_request
  (ui : Widgets) (s : SessionState) (table : list TimelineRow) :
  snd (main ui s) = Returned (Some table) ->
  rendered_step ui s = 3 /\
  button_generate_timeline ui = true /\
  table = Timeline.timeline_of (campaign_data s).
Proof.
  pass_cases ui s; split_buttons; intros Hshown;
    try discriminate; injection Hshown as <-; repeat split.
Qed.

Lemma timeline_shown_only_on_request_witness :
  rendered_step
    (mkWidgets (fun _ => false) false "" "" "" "" "" "" false
       (fun _ => false) false false [] false true false false)
    (mkSession
       (with_campaign_phases ["Awareness"]
          (with_selected_platforms ["Email"] empty_campaign_data)) [] 3) = 3 /\
  true = true /\
  [mkRow "Week 1" "Awareness" "Email" "Create Email content for Awareness"
     "Planned"]
  = Timeline.timeline_of
      (with_campaign_phases ["Awareness"]
         (with_selected_platforms ["Email"] empty_campaign_data)).
Proof.
  apply (timeline_shown_only_on_request
           (mkWidgets (fun _ => false) false "" "" "" "" "" "" false
              (fun _ => false) false false [] false true false false)
           (mkSession
              (with_campaign_phases ["Awareness"]
                 (with_selected_platforms ["Email"] empty_campaign_data))
              [] 3)).
  reflexivity.
Defined.



(** X19. The two list steps write only their own key: a pass that renders
    Platform Selection leaves every key but [selected_platforms] as it
    was, and a pass that renders Content Strategy leaves every key but
    [campaign_phases] as it was. *)
Theorem list_steps_write_only_their_key (ui : Widgets) (s : SessionState) :
  button_reset_campaign ui = false ->
  rendered_step ui s = 1 \/ rendered_step ui s = 2 ->
  campaign_data (exec (main ui) s) =
    mkCampaignData
      (product_name (campaign_data s)) (target_audience (campaign_data s))
      (campaign_duration (campaign_data s)) (key_message (campaign_data s))
      (campaign_goal (campaign_data s)) (budget_tier (campaign_data s))
      (if Nat.eqb (rendered_step ui s) 1
       then Some (filter (checkbox_platform ui) CampaignBuilder.platforms)
       else selected_platforms (campaign_data s))
      (if Nat.eqb (rendered_step ui s) 1
       then campaign_phases (campaign_data s)
       else Some (multiselect_phases ui)).
Proof.
  intros Hreset Hstep. rewrite <- ticked_platforms_eq.
  pass_cases ui s; try discriminate;
    try (destruct Hstep as [Hstep | Hstep]; discriminate);
    split_buttons; reflexivity.
Qed.

Lemma list_steps_write_only_their_key_witness :
  campaign_data
    (exec (main (ticking ["Email"]))
       (mkSession
          (mkCampaignData (Some "EcoVibe") None None None None None
             (Some ["TikTok"]) (Some ["Retention"])) [] 2))
  = mkCampaignData (Some "EcoVibe") None None None None None
      (Some ["TikTok"]) (Some CampaignBuilder.phases_catalog).
Proof.
  apply (list_steps_write_only_their_key (ticking ["Email"])
           (mkSession
              (mkCampaignData (Some "EcoVibe") None None None None None
                 (Some ["TikTok"]) (Some ["Retention"])) [] 2)).
  - reflexivity.
  - right. reflexivity.
Defined.

End Passes.
